(** * Quick Log: rule evaluation (log2json.py) and timeline layout (json2html.py)

    A shallow embedding of the two batch stages of the repository:

    - [Log2Json]: running the rules of a configuration over the matches that
      ripgrep reports, building the class/subclass/point document, merging
      and post-processing ([process_config], [main]);
    - [Json2Html]: the data part of [generate_html]: category indices, the
      sort, the spreading of points that share a millisecond, the series.

    Python values are modelled by the small universe [Py.value]; text is a list
    of Unicode code points; everything the scripts obtain from outside (the
    ripgrep process, the [re] module, the clock, the file system, the Unicode
    tables) is a field of the [World] class. *)

From Stdlib Require Import ZArith NArith List Bool Lia QArith Lqa Floats Uint63.
From Stdlib Require Import Ascii String Sorting.Sorted Sorting.Permutation.
From stdpp Require Import base option list gmap sorting.

Local Open Scope Z_scope.

(* ===================================================================== *)
(** ** Python values and text *)
(* ===================================================================== *)

Module Py.

(** A Python [str]: the sequence of its code points. *)
Definition str := list N.

(** An ASCII literal as a [str]. *)
Fixpoint lit (s : string) : str :=
  match s with
  | EmptyString => []
  | String a r => N_of_ascii a :: lit r
  end.

(** The values that configuration fields and resolvers produce. *)
Inductive value :=
| VNone
| VBool (b : bool)
| VInt (z : Z)
| VStr (s : str).

(** Exceptions that are subclasses of [Exception]. *)
Inductive exn := TypeError | ValueError | KeyError | ReError.

(** How a piece of Python code ends: a value, [sys.exit(code)], or an
    exception that nobody caught. *)
Inductive outcome (A : Type) :=
| Ok (a : A)
| Exit (code : Z)
| Raise (e : exn).
Arguments Ok {A} a.
Arguments Exit {A} code.
Arguments Raise {A} e.

Definition bind {A B} (m : outcome A) (k : A -> outcome B) : outcome B :=
  match m with
  | Ok a => k a
  | Exit c => Exit c
  | Raise e => Raise e
  end.

(** [bool(v)] *)
Definition truthy (v : value) : bool :=
  match v with
  | VNone => false
  | VBool b => b
  | VInt z => negb (z =? 0)
  | VStr s => match s with [] => false | _ => true end
  end.

Definition digit_chars : Decimal.uint -> str :=
  fix go (u : Decimal.uint) : str :=
    match u with
    | Decimal.Nil => []
    | Decimal.D0 r => 48%N :: go r
    | Decimal.D1 r => 49%N :: go r
    | Decimal.D2 r => 50%N :: go r
    | Decimal.D3 r => 51%N :: go r
    | Decimal.D4 r => 52%N :: go r
    | Decimal.D5 r => 53%N :: go r
    | Decimal.D6 r => 54%N :: go r
    | Decimal.D7 r => 55%N :: go r
    | Decimal.D8 r => 56%N :: go r
    | Decimal.D9 r => 57%N :: go r
    end.

(** [str(z)] for an [int]: decimal, with a minus sign when negative. *)
Definition str_of_int (z : Z) : str :=
  match Z.to_int z with
  | Decimal.Pos u => digit_chars u
  | Decimal.Neg u => 45%N :: digit_chars u
  end.

(** [str(v)] *)
Definition py_str (v : value) : str :=
  match v with
  | VNone => lit "None"
  | VBool true => lit "True"
  | VBool false => lit "False"
  | VInt z => str_of_int z
  | VStr s => s
  end.

(** [str.isspace] on one code point, the characters [str.strip()] removes. *)
Definition is_space (c : N) : bool :=
  ((9 <=? c) && (c <=? 13) || (28 <=? c) && (c <=? 32)
   || (c =? 133) || (c =? 160) || (c =? 5760)
   || (8192 <=? c) && (c <=? 8202)
   || (c =? 8232) || (c =? 8233) || (c =? 8239) || (c =? 8287)
   || (c =? 12288))%N.

Fixpoint lstrip (s : str) : str :=
  match s with
  | [] => []
  | c :: r => if is_space c then lstrip r else s
  end.

(** [s.strip()] *)
Definition strip (s : str) : str := rev (lstrip (rev (lstrip s))).

Definition is_ascii_alnum (c : N) : bool :=
  ((48 <=? c) && (c <=? 57) || (65 <=? c) && (c <=? 90)
   || (97 <=? c) && (c <=? 122))%N.

(** Equality as a [dict] uses it for keys: [True == 1] and [False == 0]. *)
Definition as_num (v : value) : option Z :=
  match v with
  | VBool b => Some (if b then 1 else 0)
  | VInt z => Some z
  | _ => None
  end.

Definition key_eqb (a b : value) : bool :=
  match a, b with
  | VNone, VNone => true
  | VStr s, VStr t => bool_decide (s = t)
  | _, _ =>
      match as_num a, as_num b with
      | Some x, Some y => x =? y
      | _, _ => false
      end
  end.

End Py.

Import Py.

(** The loops of the scripts thread a state and stop at the first [sys.exit]
    or uncaught exception. *)
Fixpoint foldM {S X : Type} (step : S -> X -> outcome S) (s : S) (xs : list X)
  : outcome S :=
  match xs with
  | [] => Ok s
  | x :: r => bind (step s x) (fun s' => foldM step s' r)
  end.

(** [list.sort(key=...)] and [sorted]: a stable sort, given the comparison of
    the keys. *)
Fixpoint insert_by {A : Type} (le : A -> A -> bool) (x : A) (l : list A)
  : list A :=
  match l with
  | [] => [x]
  | y :: r => if le x y then x :: l else y :: insert_by le x r
  end.

Definition sort_by {A : Type} (le : A -> A -> bool) (l : list A) : list A :=
  foldr (insert_by le) [] l.

(** A [defaultdict(list)]: the keys in the order of their first use, each with
    the list appended to so far. [dd_append eqb k v d] is [d[k].append(v)],
    [eqb] being the equality of keys; [dd_get] is [d[k]] for a key that is
    present. *)
Fixpoint dd_append {K V : Type} (eqb : K -> K -> bool) (k : K) (v : V)
    (d : list (K * list V)) : list (K * list V) :=
  match d with
  | [] => [(k, [v])]
  | (k', vs) :: r =>
      if eqb k' k then (k', vs ++ [v]) :: r
      else (k', vs) :: dd_append eqb k v r
  end.

Fixpoint dd_get {K V : Type} (eqb : K -> K -> bool) (k : K)
    (d : list (K * list V)) : list V :=
  match d with
  | [] => []
  | (k', vs) :: r => if eqb k' k then vs else dd_get eqb k r
  end.

(** [==] on keys that are tuples of strings and integers *)
Definition same_key {K : Type} `{EqDecision K} (a b : K) : bool :=
  bool_decide (a = b).


(** [enumerate(l)] *)
Definition enumerate {X : Type} (l : list X) : list (nat * X) :=
  zip (seq 0 (length l)) l.

(* ===================================================================== *)
(** ** log2json.py *)
(* ===================================================================== *)

Module Log2Json.

(** *** The Result document *)

Record point := {
  p_cursor : str;
  p_msg : str;
  p_line : Z;
  p_timestamp : Z;
  p_layer : Z
}.

Record subclass_data := {
  sd_subclassname : value;
  sd_points : list point
}.

Record class_data := {
  cd_classname : str;
  cd_subclasses : list subclass_data
}.

Record result_doc := {
  r_name : str;
  r_all : list class_data
}.

(** *** Configurations *)

(** One entry of [matches] as [run_rg_json] builds it. *)
Record rgmatch := {
  line_number : Z;
  line_text : str;
  submatches : list (str * Z * Z)
}.

(** A resolver called as [value(line, match)]: it returns or raises some
    [Exception]. *)
Inductive call_result := Returns (v : value) | Raises.

Definition callable := str -> rgmatch -> call_result.

(** A configuration field: a plain value, or something [callable()]. *)
Inductive field :=
| Lit (v : value)
| Fun (f : callable).

(** A rule as [process_config] reads it with [rule.get]: an absent [cursor]
    is [Lit VNone], an absent [layer] is [Lit (VInt 1)], an absent [pattern],
    [cursor_pattern] or [cursor_prefix] is the empty string. *)
Record rule := {
  pattern : str;
  cursor : field;
  cursor_pattern : str;
  cursor_prefix : str;
  layer : field
}.

Record sub_config := {
  subclassname : field;
  rules : list rule
}.

(** Objects live in a heap and are passed by reference: a [process_json] hook
    receives the reference held by [result], may change the document behind
    it (and any other) in place, and returns a reference or raises. *)
Definition loc := nat.

Definition heap := gmap loc result_doc.

Inductive hook_result := HReturn (l : loc) | HRaise.

Definition hook := heap -> loc -> heap * hook_result.

Record config := {
  classname : str;
  subclasses : list sub_config;
  process_json : option hook
}.

(** *** What the script gets from outside *)

(** One line of ripgrep's [--json] output, as far as [run_rg_json] looks at
    it. [EvMalformed] is a decoded line on which the loop body raises
    something other than [JSONDecodeError], such as a [match] whose [data]
    lacks a key that is read with [[...]]. *)
Inductive rg_event :=
| EvOther
| EvMatch (line_no : Z) (text : str) (subs : list (str * Z * Z))
| EvMalformed.

Inductive out_line :=
| LineEmpty
| LineNotJson
| LineJson (e : rg_event).

(** How [subprocess.run] ends: [FileNotFoundError], another exception, or a
    completed process with its exit status and its standard output. *)
Inductive proc_result :=
| ExecNotFound
| ExecError
| Completed (returncode : Z) (stdout : list out_line).

(** [re.search(pattern, line)]: [re.error], no match, or group 0. *)
Inductive re_result :=
| ReInvalid
| ReNone
| ReFound (group0 : str).

(** What [load_config] finds at a path. *)
Inductive config_source :=
| NoSuchFile
| NotPySuffix
| ExecRaises
| Module_ (c : config).

Class World := {
  (** [subprocess.run([RG_PATH, "--json", "-e", pattern, log_file], ...)] *)
  rg_run : str -> proc_result;
  (** [re.search] *)
  re_search : str -> str -> re_result;
  (** what [int(s)] makes of a string; [None] is [ValueError] *)
  int_of_str : str -> option Z;
  (** [str.isalnum] on the code points from 128 on *)
  unicode_alnum : N -> bool;
  (** the six groups of the logcat time stamp at the start of a line, as
      integers *)
  logcat_fields : str -> option (Z * Z * Z * Z * Z * Z);
  (** [datetime(year, month, day, hour, minute, second).timestamp()] in
      seconds; [None] is [ValueError] *)
  datetime_timestamp : Z -> Z -> Z -> Z -> Z -> Z -> option Z;
  (** [datetime.now().year] *)
  current_year : Z;
  (** the file system, for [load_config] and [main] *)
  config_at : str -> config_source;
  log_file_exists : bool;
  (** [sorted(glob.glob(pattern))] *)
  glob_sorted : str -> list str
}.

Section Script.
Context {W : World}.

(** [parse_logcat_timestamp(line, base_year=None)] *)
Definition parse_logcat_timestamp (line : str) : Z :=
  match logcat_fields line with
  | Some (month, day, hour, minute, second, ms) =>
      match datetime_timestamp current_year month day hour minute second with
      | Some secs => secs * 1000 + ms
      | None => 0
      end
  | None => 0
  end.

(** The loop of [run_rg_json] over the lines of the output: [None] when an
    exception other than [JSONDecodeError] leaves it. *)
Fixpoint collect_matches (lines : list out_line) (acc : list rgmatch)
  : option (list rgmatch) :=
  match lines with
  | [] => Some acc
  | LineEmpty :: r => collect_matches r acc
  | LineNotJson :: r => collect_matches r acc
  | LineJson EvOther :: r => collect_matches r acc
  | LineJson (EvMatch n t subs) :: r =>
      collect_matches r
        (acc ++ [{| line_number := n; line_text := strip t; submatches := subs |}])
  | LineJson EvMalformed :: r => None
  end.

(** [run_rg_json(pattern, log_file)]. The exit status of the process is never
    looked at. The messages it prints are left out. *)
Definition run_rg_json (pat : str) : outcome (list rgmatch) :=
  match rg_run pat with
  | ExecNotFound => Exit 1
  | ExecError => Ok []
  | Completed _ lines =>
      match collect_matches lines [] with
      | Some ms => Ok ms
      | None => Ok []
      end
  end.

(** [\w] of a [str] pattern *)
Definition is_word (c : N) : bool :=
  if (c <? 128)%N then is_ascii_alnum c || (c =? 95)%N else unicode_alnum c.

(** the class [[^\w\-_.]] negated: the characters [re.sub] keeps *)
Definition kept (c : N) : bool :=
  is_word c || (c =? 45)%N || (c =? 95)%N || (c =? 46)%N.

(** [re.sub(r'[^\w\-_.]', '_', s)] *)
Definition sanitize (s : str) : str :=
  map (fun c => if kept c then c else 95%N) s.

(** [extract_cursor(line, cursor_pattern, default)] *)
Definition extract_cursor (line pat default : str) : outcome str :=
  match pat with
  | [] => Ok default
  | _ =>
      match re_search pat line with
      | ReInvalid => Raise ReError
      | ReNone => Ok default
      | ReFound g => Ok (take 50 (sanitize (strip g)))
      end
  end.

(** [resolve_callable(value, line, match, default)] *)
Definition resolve_callable (v : field) (line : str) (m : rgmatch)
    (default : value) : value :=
  match v with
  | Fun f =>
      match f line m with
      | Returns r => r
      | Raises => default
      end
  | Lit x => x
  end.

(** [f"L{line_num}"] *)
Definition line_label (n : Z) : str := lit "L" ++ str_of_int n.

(** The cursor of a match, lines 263-272 of [process_config]. *)
Definition resolve_cursor (r : rule) (m : rgmatch) : outcome value :=
  match cursor r with
  | Fun f =>
      Ok (resolve_callable (Fun f) (line_text m) m
            (VStr (line_label (line_number m))))
  | Lit v =>
      if truthy v then Ok v
      else
        match cursor_pattern r with
        | [] => Ok (VStr (line_label (line_number m)))
        | _ =>
            bind (extract_cursor (line_text m) (cursor_pattern r) [])
              (fun extracted =>
                 Ok (VStr (match extracted with
                           | [] => line_label (line_number m)
                           | _ => cursor_prefix r ++ extracted
                           end)))
        end
  end.

(** [int(v)] *)
Definition py_int (v : value) : outcome Z :=
  match v with
  | VNone => Raise TypeError
  | VBool b => Ok (if b then 1 else 0)
  | VInt z => Ok z
  | VStr s =>
      match int_of_str s with
      | Some z => Ok z
      | None => Raise ValueError
      end
  end.

(** The layer of a match: [int(resolve_callable(layer_cfg, ..., 1))]. *)
Definition resolve_layer (r : rule) (m : rgmatch) : outcome Z :=
  py_int (resolve_callable (layer r) (line_text m) m (VInt 1)).

(** The body of the loop over [matches] from line 257 on: the subclass name
    and the point appended to its bucket. *)
Definition build_point (sc : sub_config) (r : rule) (m : rgmatch)
  : outcome (value * point) :=
  let line := line_text m in
  let ts := parse_logcat_timestamp line in
  let name := resolve_callable (subclassname sc) line m (VStr (lit "Unnamed")) in
  bind (resolve_cursor r m) (fun c =>
  bind (resolve_layer r m) (fun l =>
  Ok (name, {| p_cursor := py_str c; p_msg := line; p_line := line_number m;
               p_timestamp := ts; p_layer := l |}))).

(** The type of [subclass_points_map]: a [defaultdict(list)], which keeps its
    keys in the order of their first use. *)
Definition buckets := list (value * list point).

(** [subclass_points_map[name].append(p)] *)
Definition add_point (name : value) (p : point) (bs : buckets) : buckets :=
  dd_append key_eqb name p bs.

Record state := {
  subclass_points_map : buckets;
  seen_lines : gset Z
}.

Definition process_match (sc : sub_config) (r : rule) (st : state)
    (m : rgmatch) : outcome state :=
  if decide (line_number m ∈ seen_lines st) then Ok st
  else
    bind (build_point sc r m) (fun np =>
    Ok {| subclass_points_map := add_point np.1 np.2 (subclass_points_map st);
          seen_lines := {[ line_number m ]} ∪ seen_lines st |}).

Definition process_rule (sc : sub_config) (st : state) (r : rule)
  : outcome state :=
  match pattern r with
  | [] => Ok st
  | _ => bind (run_rg_json (pattern r)) (foldM (process_match sc r) st)
  end.

Definition process_sub (st : state) (sc : sub_config) : outcome state :=
  foldM (process_rule sc) st (rules sc).

Definition line_le (a b : point) : bool := p_line a <=? p_line b.

(** The loop that builds [result['subclasses']]. *)
Definition emit_subclasses (bs : buckets) : list subclass_data :=
  flat_map (fun kp : value * list point =>
              match sort_by line_le kp.2 with
              | [] => []
              | ps => [{| sd_subclassname := kp.1; sd_points := ps |}]
              end) bs.

(** [process_config(config, log_file)] *)
Definition process_config (cfg : config) : outcome class_data :=
  bind (foldM process_sub {| subclass_points_map := []; seen_lines := ∅ |}
          (subclasses cfg))
    (fun st => Ok {| cd_classname := classname cfg;
                     cd_subclasses := emit_subclasses (subclass_points_map st) |}).

(** [load_config(config_path)] *)
Definition load_config (path : str) : outcome config :=
  match config_at path with
  | NoSuchFile => Exit 1
  | NotPySuffix => Exit 1
  | ExecRaises => Exit 1
  | Module_ c => Ok c
  end.

(** [expand_config_patterns(patterns)]: 42 is [*], 63 is [?]. *)
Definition expand_config_patterns (patterns : list str) : list str :=
  flat_map (fun p : str =>
              if existsb (fun c => (c =? 42)%N || (c =? 63)%N) p
              then glob_sorted p else [p]) patterns.

(** The state of the loop of [main] over the configuration files. *)
Record collected := {
  all_data : list class_data;
  process_json_callbacks : list (str * hook)
}.

Definition run_config (acc : collected) (config_file : str)
  : outcome collected :=
  bind (load_config config_file) (fun cfg =>
  bind (process_config cfg) (fun cd =>
  Ok {| all_data :=
          match cd_subclasses cd with
          | [] => all_data acc
          | _ => all_data acc ++ [cd]
          end;
        process_json_callbacks :=
          match process_json cfg with
          | Some h => process_json_callbacks acc ++ [(config_file, h)]
          | None => process_json_callbacks acc
          end |})).

(** What [main] prints around the hooks. *)
Inductive message :=
| MsgRunning (config_file : str)
| MsgFailed (config_file : str).

(** The variable [result] (a reference), the heap, and the messages. *)
Record run_state := {
  rs_heap : heap;
  rs_result : loc;
  rs_log : list message
}.

(** One round of the loop over [process_json_callbacks]: the assignment to
    [result] happens only when the hook returns. *)
Definition run_hook (st : run_state) (cb : str * hook) : run_state :=
  let '(h', res) := cb.2 (rs_heap st) (rs_result st) in
  match res with
  | HReturn l =>
      {| rs_heap := h'; rs_result := l;
         rs_log := rs_log st ++ [MsgRunning cb.1] |}
  | HRaise =>
      {| rs_heap := h'; rs_result := rs_result st;
         rs_log := rs_log st ++ [MsgRunning cb.1; MsgFailed cb.1] |}
  end.

Definition run_hooks (cbs : list (str * hook)) (st : run_state) : run_state :=
  fold_left run_hook cbs st.

(** [merge_results(configs_data, log_file, name)], with the name resolved. *)
Definition merge_results (configs_data : list class_data) (name : str)
  : result_doc :=
  {| r_name := name; r_all := configs_data |}.

(** What [main] leaves behind: the document written by [json.dump] ([None]
    when [result] no longer refers to a document) and the messages. *)
Record output := {
  written : option result_doc;
  messages : list message
}.

(** [main()], after [parse_args]. *)
Definition main (config_files : list str) (name : str) : outcome output :=
  if negb log_file_exists then Exit 1
  else
    match config_files with
    | [] => Exit 1
    | _ =>
        match expand_config_patterns config_files with
        | [] => Exit 1
        | files =>
            bind (foldM run_config
                    {| all_data := []; process_json_callbacks := [] |} files)
              (fun acc =>
                 let result := merge_results (all_data acc) name in
                 let st := run_hooks (process_json_callbacks acc)
                             {| rs_heap := {[ 0%nat := result ]};
                                rs_result := 0%nat; rs_log := [] |} in
                 Ok {| written := rs_heap st !! rs_result st;
                       messages := rs_log st |})
        end
    end.

End Script.

(** *** The command line *)

(** The tuple that [parse_args] returns. *)
Record arguments := {
  arg_log_file : str;
  arg_config_files : list str;
  arg_output_file : option str;
  arg_name : option str
}.

(** The [while] loop of [parse_args] over [argv[2:]]: [-o] and [-n] take the
    next argument when there is one ([i + 1 < len(argv)]); everything else,
    a last [-o] or [-n] included, is a configuration file. *)
Fixpoint parse_options (rest : list str) (acc : arguments) : arguments :=
  match rest with
  | [] => acc
  | arg :: r =>
      match r with
      | v :: r' =>
          if bool_decide (arg = lit "-o") then
            parse_options r'
              {| arg_log_file := arg_log_file acc;
                 arg_config_files := arg_config_files acc;
                 arg_output_file := Some v;
                 arg_name := arg_name acc |}
          else if bool_decide (arg = lit "-n") then
            parse_options r'
              {| arg_log_file := arg_log_file acc;
                 arg_config_files := arg_config_files acc;
                 arg_output_file := arg_output_file acc;
                 arg_name := Some v |}
          else
            parse_options r
              {| arg_log_file := arg_log_file acc;
                 arg_config_files := arg_config_files acc ++ [arg];
                 arg_output_file := arg_output_file acc;
                 arg_name := arg_name acc |}
      | [] =>
          {| arg_log_file := arg_log_file acc;
             arg_config_files := arg_config_files acc ++ [arg];
             arg_output_file := arg_output_file acc;
             arg_name := arg_name acc |}
      end
  end.

(** [parse_args(argv)] *)
Definition parse_args (argv : list str) : outcome arguments :=
  match argv with
  | _ :: log_file :: c :: rest =>
      Ok (parse_options (c :: rest)
            {| arg_log_file := log_file; arg_config_files := [];
               arg_output_file := None; arg_name := None |})
  | _ => Exit 1
  end.

End Log2Json.

(* ===================================================================== *)
(** ** json2html.py: the data that [generate_html] lays out *)
(* ===================================================================== *)

Module Json2Html.

(** *** The arithmetic of the spread

    [generate_html] computes the spread with Python's [float]. The layout is
    written once over the operations it uses; [binary64] gives them their
    IEEE 754 meaning, [exact] reads them over the rationals. *)
Class Arith := {
  num : Type;
  of_int : Z -> num;
  nadd : num -> num -> num;
  nmul : num -> num -> num;
  ndiv : num -> num -> num;
  nneg : num -> num;
  (** the literal [0.9] *)
  lit_0_9 : num
}.

(** [float(z)] for an [int]: the nearest double, ties to even. *)
Definition float_of_int (z : Z) : float :=
  SF2Prim (binary_normalize prec emax z 0 false).

#[export] Instance binary64 : Arith := {|
  num := float;
  of_int := float_of_int;
  nadd := PrimFloat.add;
  nmul := PrimFloat.mul;
  ndiv := PrimFloat.div;
  nneg := PrimFloat.opp;
  lit_0_9 := 0x1.ccccccccccccdp-1%float
|}.

Definition exact : Arith := {|
  num := Q;
  of_int := inject_Z;
  nadd := Qplus;
  nmul := Qmult;
  ndiv := Qdiv;
  nneg := Qopp;
  lit_0_9 := 9 # 10
|}.

(** *** The document read from JSON, by the wire contract *)

Record jpoint := {
  j_timestamp : Z;
  j_cursor : str;
  j_msg : str;
  j_line : Z;
  j_layer : Z
}.

Record jsubclass := {
  j_subclassname : str;
  j_points : list jpoint
}.

Record jclass := {
  j_classname : str;
  j_subclasses : list jsubclass
}.

(** An item of ["all"] that is falsy ([null], [{}]) is [None]. *)
Record document := {
  j_name : str;
  j_all : list (option jclass)
}.

(** A number as Python holds it: an [int] or a [float]. *)
Inductive number {A : Arith} :=
| NInt (z : Z)
| NFloat (x : num).

Section Layout.
Context {A : Arith}.

(** An entry of [all_points]. The fields [timestamp] and [timeStr], which
    only the page text uses, are left out. *)
Record lpoint := {
  timestamp_ms : Z;
  cursor : str;
  msg : str;
  line : Z;
  layer : Z;
  classname : str;
  subclassname : str;
  category : str;
  category_index : nat;
  display_timestamp_ms : option number;
  display_y : option nat
}.

(** The state of the traversal of lines 53-106. *)
Record collected := {
  all_points : list lpoint;
  y_axis_categories : list str;
  category_map : gmap str nat
}.

(** [f"{classname}|{subclassname}"] *)
Definition category_label (cls sub : str) : str := cls ++ lit "|" ++ sub.

Definition new_point (cls sub label : str) (idx : nat) (p : jpoint) : lpoint :=
  {| timestamp_ms := j_timestamp p; cursor := j_cursor p; msg := j_msg p;
     line := j_line p; layer := j_layer p; classname := cls;
     subclassname := sub; category := label; category_index := idx;
     display_timestamp_ms := None; display_y := None |}.

Definition collect_subclass (cls : str) (st : collected) (s : jsubclass)
  : collected :=
  let sub := j_subclassname s in
  let label := category_label cls sub in
  match category_map st !! label with
  | None =>
      let idx := length (y_axis_categories st) in
      {| all_points :=
           all_points st ++ map (new_point cls sub label idx) (j_points s);
         y_axis_categories := y_axis_categories st ++ [label];
         category_map := <[ label := idx ]> (category_map st) |}
  | Some idx =>
      {| all_points :=
           all_points st ++ map (new_point cls sub label idx) (j_points s);
         y_axis_categories := y_axis_categories st;
         category_map := category_map st |}
  end.

Definition collect_item (st : collected) (item : option jclass) : collected :=
  match item with
  | None => st
  | Some c => fold_left (collect_subclass (j_classname c)) (j_subclasses c) st
  end.

Definition collect (d : document) : collected :=
  fold_left collect_item (j_all d)
    {| all_points := []; y_axis_categories := []; category_map := ∅ |}.

(** The sort key [(timestamp_ms, category_index, line)], compared as tuples. *)
Definition point_le (a b : lpoint) : bool :=
  if timestamp_ms a =? timestamp_ms b then
    if (category_index a =? category_index b)%nat then line a <=? line b
    else (category_index a <? category_index b)%nat
  else timestamp_ms a <? timestamp_ms b.

(** [timestamp_category_groups]: a [defaultdict(list)] whose lists hold the
    very objects of [all_points]; here, their positions in [all_points]. *)
Definition groups := list ((Z * nat) * list nat).

Definition group_key (p : lpoint) : Z * nat := (timestamp_ms p, category_index p).

Definition timestamp_category_groups (pts : list lpoint) : groups :=
  fold_left (fun gs ip => dd_append same_key (group_key ip.2) ip.1 gs)
    (enumerate pts) [].

Definition set_display (t : number) (p : lpoint) : lpoint :=
  {| timestamp_ms := timestamp_ms p; cursor := cursor p; msg := msg p;
     line := line p; layer := layer p; classname := classname p;
     subclassname := subclassname p; category := category p;
     category_index := category_index p;
     display_timestamp_ms := Some t;
     display_y := Some (category_index p) |}.

(** [-total_range / 2] *)
Definition offset_start : num := ndiv (nneg lit_0_9) (of_int 2).

(** [total_range / (n - 1)] *)
Definition step (n : nat) : num := ndiv lit_0_9 (of_int (Z.of_nat n - 1)).

(** [current_ts + offset_start + (i * step)] *)
Definition spread_value (current_ts : Z) (n i : nat) : num :=
  nadd (nadd (of_int current_ts) offset_start)
       (nmul (of_int (Z.of_nat i)) (step n)).

(** The inner loop [for i, point in enumerate(points)] of a group of more
    than one point. *)
Definition spread_members (current_ts : Z) (n : nat) (members : list nat)
    (pts : list lpoint) : list lpoint :=
  fold_left (fun acc ii =>
               alter (set_display (NFloat (spread_value current_ts n ii.1)))
                     ii.2 acc)
    (enumerate members) pts.

(** One round of the loop over [timestamp_category_groups.items()]. A group
    is never empty, so [points[0]] exists. *)
Definition spread_group (pts : list lpoint) (g : (Z * nat) * list nat)
  : list lpoint :=
  let n := length g.2 in
  if (1 <? n)%nat then spread_members g.1.1 n g.2 pts
  else
    match g.2 with
    | idx :: _ =>
        alter (fun p => set_display (NInt (timestamp_ms p)) p) idx pts
    | [] => pts
    end.

Definition spread (pts : list lpoint) (gs : groups) : list lpoint :=
  fold_left spread_group gs pts.

(** *** Series *)

Definition layer_color_palette : list str :=
  map lit
    [ "#667eea"; "#28a745"; "#ffc107"; "#dc3545"; "#17a2b8"; "#fd7e14";
      "#6f42c1"; "#20c997"; "#e83e8c"; "#007bff"; "#6610f2"; "#795548";
      "#607d8b"; "#4caf50"; "#ff5722"; "#9c27b0"; "#00bcd4"; "#8bc34a";
      "#ff9800"; "#3f51b5" ]%string.

(** [get_layer_color(layer)]; Python's [%] takes the sign of the divisor, as
    [Z.modulo] does. *)
Definition get_layer_color (layer : Z) : str :=
  nth (Z.to_nat ((layer - 1) mod Z.of_nat (length layer_color_palette)))
      layer_color_palette [].

(** [f'Layer {layer}'] *)
Definition get_layer_name (layer : Z) : str := lit "Layer " ++ str_of_int layer.

(** An entry of a series' [data]. *)
Record series_point := {
  sp_value : option number * option nat * str;
  sp_cursor : str;
  sp_msg : str;
  sp_line : Z;
  sp_layer : Z;
  sp_classname : str;
  sp_subclassname : str
}.

Definition series_point_of (p : lpoint) : series_point :=
  {| sp_value := (display_timestamp_ms p, display_y p, cursor p);
     sp_cursor := cursor p; sp_msg := msg p; sp_line := line p;
     sp_layer := layer p; sp_classname := classname p;
     sp_subclassname := subclassname p |}.

Definition series_key (p : lpoint) : str * Z := (subclassname p, layer p).

(** [subclass_layer_series], a [defaultdict(list)]. *)
Definition series_map := list ((str * Z) * list series_point).

Definition subclass_layer_series (pts : list lpoint) : series_map :=
  fold_left (fun m p => dd_append same_key (series_key p) (series_point_of p) m)
    pts [].

(** [a <= b] on [str]: by code points, a prefix first. *)
Fixpoint str_le (a b : str) : bool :=
  match a, b with
  | [], _ => true
  | _ :: _, [] => false
  | x :: a', y :: b' =>
      if (x <? y)%N then true
      else if (y <? x)%N then false
      else str_le a' b'
  end.

(** [a <= b] on the tuples [(subclassname, layer)] *)
Definition key_le (a b : str * Z) : bool :=
  if decide (a.1 = b.1) then a.2 <=? b.2 else str_le a.1 b.1.

(** An entry of [series_config], without the constant chart options. *)
Record series := {
  s_key : str * Z;
  s_name : str;
  s_data : list series_point;
  s_color : str
}.

Definition series_config (pts : list lpoint) : list series :=
  let m := subclass_layer_series pts in
  map (fun k : str * Z =>
         {| s_key := k;
            s_name := k.1 ++ lit " - " ++ get_layer_name k.2;
            s_data := dd_get same_key k m;
            s_color := get_layer_color k.2 |})
      (sort_by key_le (map fst m)).

(** *** The layout *)

Record layout_model := {
  lm_categories : list str;
  lm_groups : groups;
  lm_points : list lpoint;
  lm_series : list series
}.

Definition generate_html (d : document) : layout_model :=
  let c := collect d in
  let sorted := sort_by point_le (all_points c) in
  let gs := timestamp_category_groups sorted in
  let pts := spread sorted gs in
  {| lm_categories := y_axis_categories c;
     lm_groups := gs;
     lm_points := pts;
     lm_series := series_config pts |}.

End Layout.

End Json2Html.

(* ===================================================================== *)
(** ** The sample configurations *)
(* ===================================================================== *)

Module Configs.
Import Log2Json.

(** *** configs/example_process_json.py *)

(** The key of [points.sort(key=lambda p: p.get('timestamp', 0))]. *)
Definition timestamp_le (a b : point) : bool := p_timestamp a <=? p_timestamp b.

(** [point['layer'] = l] *)
Definition with_layer (l : Z) (p : point) : point :=
  {| p_cursor := p_cursor p; p_msg := p_msg p; p_line := p_line p;
     p_timestamp := p_timestamp p; p_layer := l |}.

(** The layer given to position [i] of [n] points: the first third gets 1,
    the middle third 2, the rest 3. *)
Definition third_layer (n i : nat) : Z :=
  if (i <? n / 3)%nat then 1
  else if (i <? 2 * n / 3)%nat then 2
  else 3.

(** What the body of the loop over the subclasses leaves in [points]. *)
Definition relayer (points : list point) : list point :=
  let sorted := sort_by timestamp_le points in
  map (fun ip : nat * point => with_layer (third_layer (length sorted) ip.1) ip.2)
      (enumerate sorted).

Definition relayer_subclass (sd : subclass_data) : subclass_data :=
  {| sd_subclassname := sd_subclassname sd;
     sd_points := relayer (sd_points sd) |}.

Definition relayer_class (cd : class_data) : class_data :=
  {| cd_classname := cd_classname cd;
     cd_subclasses := map relayer_subclass (cd_subclasses cd) |}.

Definition relayer_doc (d : result_doc) : result_doc :=
  {| r_name := r_name d; r_all := map relayer_class (r_all d) |}.

(** [process_json(result)]: it changes the document in place and returns the
    reference it was given; on a reference that holds no document
    ([result.get] on [None]) it raises. *)
Definition process_json_example : hook :=
  fun h l =>
    match h !! l with
    | Some d => (<[ l := relayer_doc d ]> h, HReturn l)
    | None => (h, HRaise)
    end.

(** *** configs/audio.py *)

(** [re.search(r'\s([EWID])\s', line)]: group 1 of the leftmost match. *)
Definition is_level (c : N) : bool :=
  (c =? 69)%N || (c =? 87)%N || (c =? 73)%N || (c =? 68)%N.

Fixpoint search_level (line : str) : option N :=
  match line with
  | a :: r =>
      match r with
      | b :: c :: _ =>
          if is_space a && is_level b && is_space c then Some b
          else search_level r
      | _ => None
      end
  | [] => None
  end.

(** [get_log_level(line)]: the level letter, ['I'] when there is none. *)
Definition get_log_level (line : str) : N :=
  match search_level line with
  | Some c => c
  | None => 73%N
  end.

(** [level_to_layer(line, match=None)]:
    [{'E': 1, 'W': 2, 'I': 2, 'D': 3}.get(level, 2)] *)
Definition level_to_layer : callable :=
  fun line _ =>
    let level := get_log_level line in
    Returns (VInt (if (level =? 69)%N then 1
                   else if (level =? 87)%N then 2
                   else if (level =? 73)%N then 2
                   else if (level =? 68)%N then 3
                   else 2)).

End Configs.

(* ===================================================================== *)
(** ** Vocabulary of the statements *)
(* ===================================================================== *)

Module Log2JsonSpec.
Import Log2Json.

Section Vocabulary.
Context {W : World}.

(** The matches that [process_config] walks through, in the order of the
    loops: groups, then rules with a pattern, then the matches ripgrep
    reported for it. *)
Definition work_item := (sub_config * rule * rgmatch)%type.

Definition work_of_rule (sc : sub_config) (r : rule) : list work_item :=
  match pattern r with
  | [] => []
  | _ =>
      match run_rg_json (pattern r) with
      | Ok ms => map (fun m => (sc, r, m)) ms
      | _ => []
      end
  end.

Definition work_of_sub (sc : sub_config) : list work_item :=
  flat_map (work_of_rule sc) (rules sc).

Definition work (cfg : config) : list work_item :=
  flat_map work_of_sub (subclasses cfg).

(** One round of the innermost loop. *)
Definition step_item (st : state) (w : work_item) : outcome state :=
  process_match w.1.1 w.1.2 st w.2.

Definition points_of (bs : buckets) : list point := flat_map snd bs.

(** All points of an emitted class. *)
Definition class_points (cd : class_data) : list point :=
  flat_map sd_points (cd_subclasses cd).

(** [p] sits in the bucket that the name [n] selects. *)
Definition in_bucket (n : value) (p : point) (bs : buckets) : Prop :=
  exists k ps, In (k, ps) bs /\ key_eqb k n = true /\ In p ps.

(** The invariant of the loops: the lines of the points collected so far are
    pairwise different, and all of them are in [seen_lines]. *)
Definition inv (st : state) : Prop :=
  NoDup (map p_line (points_of (subclass_points_map st))) /\
  forall p, In p (points_of (subclass_points_map st)) -> p_line p ∈ seen_lines st.

End Vocabulary.

(** [^[A-Za-z0-9_.-]{0,50}$] under [re.match]: [$] also matches just before a
    newline that ends the string. *)
Definition in_cursor_class (c : N) : bool :=
  is_ascii_alnum c || (c =? 95)%N || (c =? 46)%N || (c =? 45)%N.

Definition class_run (s : str) : bool :=
  (length s <=? 50)%nat && forallb in_cursor_class s.

Definition cursor_regex_match (s : str) : bool :=
  class_run s ||
  match rev s with
  | 10%N :: r => class_run (rev r)
  | _ => false
  end.

Definition has_pattern (r : rule) : bool :=
  match pattern r with [] => false | _ => true end.

(** Some rule of the configuration makes [process_config] call ripgrep. *)
Definition has_active_rule (cfg : config) : bool :=
  existsb (fun sc => existsb has_pattern (rules sc)) (subclasses cfg).

(** The state of the loop of [main] before the first configuration. *)
Definition no_points : collected :=
  {| all_data := []; process_json_callbacks := [] |}.

(** A pattern that [expand_config_patterns] hands to [glob]. *)
Definition has_wildcard (p : str) : bool :=
  existsb (fun c => (c =? 42)%N || (c =? 63)%N) p.

(** The match that the loop of [run_rg_json] appends for a line of output. *)
Definition match_of (l : out_line) : option rgmatch :=
  match l with
  | LineJson (EvMatch n t subs) =>
      Some {| line_number := n; line_text := strip t; submatches := subs |}
  | _ => None
  end.

(** The configuration without the rules that have no pattern. *)
Definition prune_rules (cfg : config) : config :=
  {| classname := classname cfg;
     subclasses :=
       map (fun sc => {| subclassname := subclassname sc;
                         rules := List.filter has_pattern (rules sc) |})
           (subclasses cfg);
     process_json := process_json cfg |}.

(** The words that [parse_args] reads as options. *)
Definition is_option (a : str) : bool :=
  bool_decide (a = lit "-o") || bool_decide (a = lit "-n").

(** The file of a start message, and of a failure message. *)
Definition started (m : message) : option str :=
  match m with
  | MsgRunning f => Some f
  | MsgFailed _ => None
  end.

Definition failed (m : message) : option str :=
  match m with
  | MsgRunning _ => None
  | MsgFailed f => Some f
  end.

Section Files.
Context {W : World}.

(** A configuration file that loads, with the class it evaluates to. *)
Definition evaluated (f : str) : option (config * class_data) :=
  match config_at f with
  | Module_ c =>
      match process_config c with
      | Ok cd => Some (c, cd)
      | _ => None
      end
  | _ => None
  end.

(** What the file adds to [all_data] and to [process_json_callbacks]. *)
Definition class_from (f : str) : list class_data :=
  match evaluated f with
  | Some (_, cd) =>
      match cd_subclasses cd with
      | [] => []
      | _ => [cd]
      end
  | None => []
  end.

Definition hook_from (f : str) : list (str * hook) :=
  match evaluated f with
  | Some (c, _) =>
      match process_json c with
      | Some h => [(f, h)]
      | None => []
      end
  | None => []
  end.

End Files.

End Log2JsonSpec.

Module Json2HtmlSpec.
Import Json2Html.



Section Vocabulary.
Context {A : Arith}.



(** A point without the two fields that the spreading sets. *)
Definition clear_display (p : lpoint) : lpoint :=
  {| timestamp_ms := timestamp_ms p; cursor := cursor p; msg := msg p;
     line := line p; layer := layer p; classname := classname p;
     subclassname := subclassname p; category := category p;
     category_index := category_index p;
     display_timestamp_ms := None; display_y := None |}.



End Vocabulary.


(** The display time of the point at position [i], when it is a [float] of
    the arithmetic of the code. *)
Definition display_float (pts : list (lpoint (A := binary64))) (i : nat)
  : option float :=
  match pts !! i with
  | Some p =>
      match display_timestamp_ms p with
      | Some (NFloat x) => Some x
      | _ => None
      end
  | None => None
  end.

End Json2HtmlSpec.

(* ===================================================================== *)
(** ** A small world and some configurations, to run the scripts on *)
(* ===================================================================== *)

Module Demo.
Import Log2Json.

(** A three-line log with [ERROR] on lines 1 and 3, a line 5 that holds both
    [A] and [B], and a line 7 whose time stamp does not parse. *)
Definition log_line (n : Z) : str :=
  if n =? 1 then lit "07-28 15:15:07.283 ERROR one"
  else if n =? 3 then lit "07-28 15:15:07.283 ERROR three"
  else if n =? 5 then lit "07-28 15:15:08.000 A and B"
  else lit "  boot: init #7 ".

Definition match_at (n : Z) : out_line :=
  LineJson (EvMatch n (log_line n) []).

(** ripgrep: status 0 with matches, status 1 without, status 2 on a pattern it
    cannot parse. *)
Definition demo_rg (pat : str) : proc_result :=
  if bool_decide (pat = lit "ERROR")
  then Completed 0 [LineJson EvOther; match_at 1; match_at 3; LineJson EvOther]
  else if bool_decide (pat = lit "A") || bool_decide (pat = lit "B")
  then Completed 0 [LineJson EvOther; match_at 5; LineJson EvOther]
  else if bool_decide (pat = lit "boot")
  then Completed 0 [LineJson EvOther; match_at 7; LineJson EvOther]
  else if bool_decide (pat = lit "(")
  then Completed 2 []
  else Completed 1 [].

(** [re.search]: only [.*] is understood, and finds the whole line. *)
Definition demo_re (pat line : str) : re_result :=
  if bool_decide (pat = lit ".*") then ReFound line else ReNone.

Definition digit_value (c : N) : option Z :=
  if ((48 <=? c) && (c <=? 57))%N then Some (Z.of_N c - 48) else None.

(** [int(s)] on strings of ASCII digits. *)
Definition demo_int (s : str) : option Z :=
  match s with
  | [] => None
  | _ => fold_left (fun acc c =>
                      match acc, digit_value c with
                      | Some a, Some d => Some (10 * a + d)
                      | _, _ => None
                      end) s (Some 0)
  end.

Definition demo_fields (line : str) : option (Z * Z * Z * Z * Z * Z) :=
  if bool_decide (take 18 line = lit "07-28 15:15:07.283")
  then Some (7, 28, 15, 15, 7, 283)
  else if bool_decide (take 18 line = lit "07-28 15:15:08.000")
  then Some (7, 28, 15, 15, 8, 0)
  else None.

(** Seconds since the epoch, in a zone without offset, within July 2024. *)
Definition demo_datetime (year month day hour minute second : Z) : option Z :=
  if (year =? 2024) && (month =? 7) && (1 <=? day) && (day <=? 31)
     && (0 <=? hour) && (hour <? 24) && (0 <=? minute) && (minute <? 60)
     && (0 <=? second) && (second <? 60)
  then Some (1719792000 + (day - 1) * 86400 + hour * 3600 + minute * 60 + second)
  else None.

(** Scenario of the specification: pattern [ERROR], cursor [ERR], layer 1. *)
Definition errors_config : config :=
  {| classname := lit "Errors";
     subclasses :=
       [ {| subclassname := Lit (VStr (lit "Error Events"));
            rules := [ {| pattern := lit "ERROR";
                          cursor := Lit (VStr (lit "ERR"));
                          cursor_pattern := []; cursor_prefix := [];
                          layer := Lit (VInt 1) |} ] |} ];
     process_json := None |}.

(** Two rules of one group that both match line 5. *)
Definition rule_A : rule :=
  {| pattern := lit "A"; cursor := Lit (VStr (lit "CUR_A"));
     cursor_pattern := []; cursor_prefix := []; layer := Lit (VInt 2) |}.

Definition rule_B : rule :=
  {| pattern := lit "B"; cursor := Lit (VStr (lit "CUR_B"));
     cursor_pattern := []; cursor_prefix := []; layer := Lit (VInt 3) |}.

Definition group_AB : sub_config :=
  {| subclassname := Lit (VStr (lit "Letters")); rules := [rule_A; rule_B] |}.

Definition ab_config : config :=
  {| classname := lit "AB"; subclasses := [group_AB]; process_json := None |}.

(** A literal cursor with a blank in it. *)
Definition blank_cursor_config : config :=
  {| classname := lit "Blank";
     subclasses :=
       [ {| subclassname := Lit (VStr (lit "Events"));
            rules := [ {| pattern := lit "ERROR";
                          cursor := Lit (VStr (lit "my cursor"));
                          cursor_pattern := []; cursor_prefix := [];
                          layer := Lit (VInt 1) |} ] |} ];
     process_json := None |}.

(** A rule whose cursor is cut out of the line by [cursor_pattern]. *)
Definition extracting_rule : rule :=
  {| pattern := lit "boot"; cursor := Lit VNone;
     cursor_pattern := lit ".*"; cursor_prefix := [];
     layer := Lit (VInt 1) |}.

(** A rule with an empty literal cursor and no [cursor_pattern]. *)
Definition empty_cursor_rule : rule :=
  {| pattern := lit "boot"; cursor := Lit (VStr []);
     cursor_pattern := []; cursor_prefix := [];
     layer := Lit (VInt 1) |}.

Definition boot_group (r : rule) : sub_config :=
  {| subclassname := Lit (VStr (lit "Boot")); rules := [r] |}.

(** A layer resolver that raises, and one that returns [None]. *)
Definition raising_layer_rule : rule :=
  {| pattern := lit "ERROR"; cursor := Lit (VStr (lit "ERR"));
     cursor_pattern := []; cursor_prefix := [];
     layer := Fun (fun _ _ => Raises) |}.

Definition none_layer_rule : rule :=
  {| pattern := lit "ERROR"; cursor := Lit (VStr (lit "ERR"));
     cursor_pattern := []; cursor_prefix := [];
     layer := Fun (fun _ _ => Returns VNone) |}.

Definition none_layer_config : config :=
  {| classname := lit "Layers";
     subclasses := [ {| subclassname := Lit (VStr (lit "Events"));
                        rules := [none_layer_rule] |} ];
     process_json := None |}.

(** A rule whose pattern ripgrep rejects (exit status 2). *)
Definition rejected_pattern_config : config :=
  {| classname := lit "Rejected";
     subclasses :=
       [ {| subclassname := Lit (VStr (lit "Events"));
            rules := [ {| pattern := lit "(";
                          cursor := Lit (VStr (lit "X"));
                          cursor_pattern := []; cursor_prefix := [];
                          layer := Lit (VInt 1) |} ] |} ];
     process_json := None |}.

(** A hook that renames the document in place and then raises, one that
    raises at once, and one that returns a fresh, emptied document. *)
Definition renaming_then_raising : hook :=
  fun h l =>
    (alter (fun d => {| r_name := lit "changed"; r_all := r_all d |}) l h,
     HRaise).

Definition raising_at_once : hook := fun h l => (h, HRaise).

Definition emptying : hook :=
  fun h l =>
    (<[ S l := {| r_name := lit "empty"; r_all := [] |} ]> h, HReturn (S l)).

Definition hooked_config (h : hook) : config :=
  {| classname := classname errors_config;
     subclasses := subclasses errors_config;
     process_json := Some h |}.

Definition demo_files (path : str) : config_source :=
  if bool_decide (path = lit "errors.py") then Module_ errors_config
  else if bool_decide (path = lit "ab.py") then Module_ ab_config
  else if bool_decide (path = lit "mutate.py")
  then Module_ (hooked_config renaming_then_raising)
  else if bool_decide (path = lit "raise.py")
  then Module_ (hooked_config raising_at_once)
  else if bool_decide (path = lit "empty.py")
  then Module_ (hooked_config emptying)
  else if bool_decide (path = lit "rejected.py")
  then Module_ rejected_pattern_config
  else if bool_decide (path = lit "broken.py") then ExecRaises
  else if bool_decide (path = lit "notes.txt") then NotPySuffix
  else NoSuchFile.

#[export] Instance world : World := {|
  rg_run := demo_rg;
  re_search := demo_re;
  int_of_str := demo_int;
  unicode_alnum := fun c => (c =? 233)%N;
  logcat_fields := demo_fields;
  datetime_timestamp := demo_datetime;
  current_year := 2024;
  config_at := demo_files;
  log_file_exists := true;
  glob_sorted := fun _ => []
|}.

(** The same machine without ripgrep installed. *)
Definition world_without_rg : World := {|
  rg_run := fun _ => ExecNotFound;
  re_search := demo_re;
  int_of_str := demo_int;
  unicode_alnum := fun c => (c =? 233)%N;
  logcat_fields := demo_fields;
  datetime_timestamp := demo_datetime;
  current_year := 2024;
  config_at := demo_files;
  log_file_exists := true;
  glob_sorted := fun _ => []
|}.

(** The match that [run_rg_json] reports for line 7. *)
Definition boot_match : rgmatch :=
  {| line_number := 7; line_text := strip (log_line 7); submatches := [] |}.

(** What [process_config] returns in [world], or an empty class. *)
Definition class_of (cfg : config) : class_data :=
  match process_config cfg with
  | Ok cd => cd
  | _ => {| cd_classname := []; cd_subclasses := [] |}
  end.

Definition errors_class : class_data := Eval vm_compute in class_of errors_config.

Definition ab_class : class_data := Eval vm_compute in class_of ab_config.

(** Documents for the layout: [n] points of one subclass on the lines
    [1..n], all with the time stamp [ts]. *)
Definition same_ms_points (ts : Z) (n : nat) : list Json2Html.jpoint :=
  map (fun i => {| Json2Html.j_timestamp := ts;
                   Json2Html.j_cursor := lit "C";
                   Json2Html.j_msg := [];
                   Json2Html.j_line := Z.of_nat i;
                   Json2Html.j_layer := 1 |})
      (seq 1 n).


(** Four points in one millisecond, and a later one in another subclass with
    layer 21. *)
Definition four_doc : Json2Html.document :=
  {| Json2Html.j_name := lit "run";
     Json2Html.j_all :=
       [ Some {| Json2Html.j_classname := lit "Class";
                 Json2Html.j_subclasses :=
                   [ {| Json2Html.j_subclassname := lit "Sub";
                        Json2Html.j_points :=
                          same_ms_points 1722179707283 4 |};
                     {| Json2Html.j_subclassname := lit "Other";
                        Json2Html.j_points :=
                          [ {| Json2Html.j_timestamp := 1722179707290;
                               Json2Html.j_cursor := lit "D";
                               Json2Html.j_msg := [];
                               Json2Html.j_line := 9;
                               Json2Html.j_layer := 21 |} ] |} ] |} ] |}.

(** The rule of configs/audio.py whose layer is [level_to_layer], and a match
    on a line of level [E]. *)
Definition audio_policy_rule : rule :=
  {| pattern := lit "AudioPolicy.*output";
     cursor := Lit (VStr (lit "AUDIO_POLICY"));
     cursor_pattern := []; cursor_prefix := [];
     layer := Fun Configs.level_to_layer |}.

Definition audio_policy_match : rgmatch :=
  {| line_number := 12;
     line_text := lit "07-28 15:15:07.283  612  640 E AudioPolicy: no output";
     submatches := [] |}.

(** The document that [main] hands to the hooks for errors.py. *)
Definition errors_doc : result_doc :=
  merge_results [errors_class] (lit "run").

End Demo.

(* ===================================================================== *)
(** ** Facts about the sort and the monadic fold *)
(* ===================================================================== *)

Section SortFacts.
Context {A : Type} (le : A -> A -> bool).

Lemma insert_by_perm (x : A) (l : list A) :
  Permutation (insert_by le x l) (x :: l).
Proof.
  induction l as [|y r IH]; simpl; [reflexivity|].
  destruct (le x y); [reflexivity|].
  rewrite IH. apply perm_swap.
Qed.

Lemma sort_by_perm (l : list A) : Permutation (sort_by le l) l.
Proof.
  induction l as [|x r IH]; simpl; [constructor|].
  rewrite insert_by_perm. now constructor.
Qed.

Hypothesis le_total : forall a b, le a b = false -> le b a = true.

Lemma insert_by_sorted (x : A) (l : list A) :
  Sorted (fun a b => le a b = true) l ->
  Sorted (fun a b => le a b = true) (insert_by le x l).
Proof.
  induction 1 as [|y r Hs IH Hhd]; simpl.
  - repeat constructor.
  - destruct (le x y) eqn:E.
    + constructor; [now constructor | now constructor].
    + constructor; [exact IH|].
      destruct r as [|z r']; simpl.
      * constructor. now apply le_total.
      * destruct (le x z); constructor; [now apply le_total|].
        now inversion Hhd.
Qed.

Lemma sort_by_sorted (l : list A) :
  Sorted (fun a b => le a b = true) (sort_by le l).
Proof.
  induction l as [|x r IH]; simpl; [constructor|].
  now apply insert_by_sorted.
Qed.

End SortFacts.

Lemma Sorted_weaken {A : Type} (R R' : A -> A -> Prop) (l : list A) :
  (forall a b, R a b -> R' a b) -> Sorted R l -> Sorted R' l.
Proof.
  intros HR. induction 1 as [|a l _ IH Hhd]; constructor; [exact IH|].
  destruct Hhd; constructor; auto.
Qed.

Lemma dd_append_perm {K V : Type} (eqb : K -> K -> bool) (k : K) (v : V)
    (d : list (K * list V)) :
  Permutation (flat_map snd (dd_append eqb k v d)) (v :: flat_map snd d).
Proof.
  induction d as [|[k' vs] r IH]; simpl; [reflexivity|].
  destruct (eqb k' k); simpl.
  - rewrite <- app_assoc. simpl.
    rewrite <- Permutation_middle. reflexivity.
  - rewrite IH. rewrite <- Permutation_middle. reflexivity.
Qed.

Lemma foldM_app {S X : Type} (step : S -> X -> outcome S) (xs ys : list X) (s : S) :
  foldM step s (xs ++ ys) = bind (foldM step s xs) (fun s' => foldM step s' ys).
Proof.
  revert s; induction xs as [|x r IH]; intros s; simpl; [reflexivity|].
  destruct (step s x); simpl; auto.
Qed.

Lemma foldM_map {S X Y : Type} (f : Y -> X) (step : S -> X -> outcome S)
    (ys : list Y) (s : S) :
  foldM step s (map f ys) = foldM (fun s y => step s (f y)) s ys.
Proof.
  revert s; induction ys as [|y r IH]; intros s; simpl; [reflexivity|].
  destruct (step s (f y)); simpl; auto.
Qed.

Lemma bind_Ok_inv {A B : Type} (m : outcome A) (k : A -> outcome B) (b : B) :
  bind m k = Ok b -> exists a, m = Ok a /\ k a = Ok b.
Proof. destruct m; simpl; intros E; try discriminate. eauto. Qed.

(* ===================================================================== *)
(** ** log2json.py: the evaluation of one configuration *)
(* ===================================================================== *)

Module Log2JsonFacts.
Import Log2Json Log2JsonSpec.

Section Evaluation.
Context {W : World}.

Lemma process_rule_work sc st r st' :
  process_rule sc st r = Ok st' ->
  foldM step_item st (work_of_rule sc r) = Ok st'.
Proof.
  unfold process_rule, work_of_rule.
  destruct (pattern r) as [|c pat]; [intros E; exact E|].
  destruct (run_rg_json (c :: pat)) as [ms| |]; simpl; try discriminate.
  intros E. rewrite foldM_map. exact E.
Qed.

Lemma process_sub_work sc st st' :
  process_sub st sc = Ok st' ->
  foldM step_item st (work_of_sub sc) = Ok st'.
Proof.
  unfold process_sub, work_of_sub.
  generalize (rules sc) as rs. intros rs; revert st.
  induction rs as [|r rs IH]; intros st; simpl; [auto|].
  intros E. apply bind_Ok_inv in E as (st1 & E1 & E2).
  rewrite foldM_app, (process_rule_work _ _ _ _ E1). simpl. auto.
Qed.

Lemma process_subs_work subs st st' :
  foldM process_sub st subs = Ok st' ->
  foldM step_item st (flat_map work_of_sub subs) = Ok st'.
Proof.
  revert st; induction subs as [|sc subs IH]; intros st; simpl; [auto|].
  intros E. apply bind_Ok_inv in E as (st1 & E1 & E2).
  rewrite foldM_app, (process_sub_work _ _ _ E1). simpl. auto.
Qed.

Lemma key_eqb_refl (v : value) : key_eqb v v = true.
Proof.
  destruct v as [|b|z|s]; simpl.
  - reflexivity.
  - destruct b; reflexivity.
  - apply Z.eqb_refl.
  - now apply bool_decide_eq_true.
Qed.

Lemma add_point_perm n p bs :
  Permutation (points_of (add_point n p bs)) (p :: points_of bs).
Proof. apply dd_append_perm. Qed.

Lemma in_bucket_add_same n p bs : in_bucket n p (add_point n p bs).
Proof.
  unfold add_point. induction bs as [|[k ps] r IH]; simpl.
  - exists n, [p]. repeat split; [now left | apply key_eqb_refl | now left].
  - destruct (key_eqb k n) eqn:E.
    + exists k, (ps ++ [p]). repeat split; [now left | exact E |].
      apply in_or_app; right; now left.
    + destruct IH as (k' & ps' & Hin & Hk & Hp).
      exists k', ps'. repeat split; auto. now right.
Qed.

Lemma in_bucket_add_other n p n' p' bs :
  in_bucket n' p' bs -> in_bucket n' p' (add_point n p bs).
Proof.
  intros (k & ps & Hin & Hk & Hp). unfold add_point.
  induction bs as [|[k0 ps0] r IH]; simpl; [destruct Hin|].
  destruct Hin as [E|Hin].
  - inversion E; subst k0 ps0.
    destruct (key_eqb k n).
    + exists k, (ps ++ [p]). repeat split; [now left | exact Hk |].
      apply in_or_app; now left.
    + exists k, ps. repeat split; auto. now left.
  - destruct (key_eqb k0 n).
    + exists k, ps. repeat split; auto. now right.
    + destruct (IH Hin) as (k' & ps' & Hin' & Hk' & Hp').
      exists k', ps'. repeat split; auto. now right.
Qed.

Lemma build_point_line sc r m n p :
  build_point sc r m = Ok (n, p) -> p_line p = line_number m.
Proof.
  unfold build_point. intros E.
  apply bind_Ok_inv in E as (c & _ & E).
  apply bind_Ok_inv in E as (l & _ & E).
  inversion E; reflexivity.
Qed.

Lemma step_item_cases st w st' :
  step_item st w = Ok st' ->
  (line_number w.2 ∈ seen_lines st /\ st' = st) \/
  ((line_number w.2 ∉ seen_lines st) /\
   exists n p, build_point w.1.1 w.1.2 w.2 = Ok (n, p) /\
     st' = {| subclass_points_map := add_point n p (subclass_points_map st);
              seen_lines := {[ line_number w.2 ]} ∪ seen_lines st |}).
Proof.
  unfold step_item, process_match.
  destruct (decide (line_number w.2 ∈ seen_lines st)) as [Hin|Hn].
  - intros E; inversion E; subst. left; split; [exact Hin | reflexivity].
  - intros E. apply bind_Ok_inv in E as ([n p] & E1 & E2).
    right. split; [exact Hn|]. exists n, p. split; [exact E1|].
    now inversion E2.
Qed.

Lemma step_item_inv st w st' : inv st -> step_item st w = Ok st' -> inv st'.
Proof.
  intros [Hnd Hseen] E.
  apply step_item_cases in E as [[_ ->]|(Hn & n & p & Hb & ->)];
    [split; assumption|].
  pose proof (build_point_line _ _ _ _ _ Hb) as Hl.
  split; simpl.
  - rewrite (Permutation_map p_line (add_point_perm n p _)). simpl.
    apply NoDup_cons. split; [|exact Hnd].
    rewrite list_elem_of_In, in_map_iff. intros (q & Hq & Hin).
    apply Hn. rewrite <- Hl, <- Hq. now apply Hseen.
  - intros q Hq.
    apply (Permutation_in _ (add_point_perm n p _)) in Hq.
    destruct Hq as [<-|Hq]; [rewrite Hl; set_solver|].
    apply Hseen in Hq. set_solver.
Qed.

Lemma run_inv ws st st' : inv st -> foldM step_item st ws = Ok st' -> inv st'.
Proof.
  revert st; induction ws as [|w ws IH]; intros st Hi; simpl.
  - intros E; inversion E; subst; exact Hi.
  - intros E. apply bind_Ok_inv in E as (st1 & E1 & E2).
    eapply IH; [|exact E2]. eapply step_item_inv; eauto.
Qed.

Lemma step_item_mono st w st' n p :
  step_item st w = Ok st' ->
  in_bucket n p (subclass_points_map st) -> in_bucket n p (subclass_points_map st').
Proof.
  intros E Hb.
  apply step_item_cases in E as [[_ ->]|(_ & n' & p' & _ & ->)]; [exact Hb|].
  simpl. now apply in_bucket_add_other.
Qed.

Lemma run_mono ws st st' n p :
  foldM step_item st ws = Ok st' ->
  in_bucket n p (subclass_points_map st) -> in_bucket n p (subclass_points_map st').
Proof.
  revert st; induction ws as [|w ws IH]; intros st; simpl.
  - intros E; inversion E; subst; auto.
  - intros E Hb. apply bind_Ok_inv in E as (st1 & E1 & E2).
    eapply IH; [exact E2|]. eapply step_item_mono; eauto.
Qed.

(** A line gets into [seen_lines] only through a match on that line. *)
Lemma run_seen ws st st' z :
  foldM step_item st ws = Ok st' ->
  z ∈ seen_lines st' ->
  z ∈ seen_lines st \/ exists w, In w ws /\ line_number w.2 = z.
Proof.
  revert st; induction ws as [|w ws IH]; intros st; simpl.
  - intros E; inversion E; subst; auto.
  - intros E Hz. apply bind_Ok_inv in E as (st1 & E1 & E2).
    destruct (IH _ E2 Hz) as [Hz1|(w' & Hw' & Hl)]; [|eauto].
    apply step_item_cases in E1 as [[_ ->]|(_ & n' & p' & _ & ->)]; [auto|].
    simpl in Hz1. apply elem_of_union in Hz1 as [Hz1|Hz1]; [|auto].
    apply elem_of_singleton in Hz1. right. exists w. auto.
Qed.

(** First match wins: the first match on a line decides the point. *)
Lemma run_first pre sc r m post st st' :
  foldM step_item st (pre ++ (sc, r, m) :: post) = Ok st' ->
  line_number m ∉ seen_lines st ->
  (forall w, In w pre -> line_number w.2 <> line_number m) ->
  exists n p, build_point sc r m = Ok (n, p) /\ in_bucket n p (subclass_points_map st').
Proof.
  intros E Hns Hpre.
  rewrite foldM_app in E. apply bind_Ok_inv in E as (st1 & E1 & E2).
  simpl in E2. apply bind_Ok_inv in E2 as (st2 & E2 & E3).
  apply step_item_cases in E2 as [[Hin _]|(_ & n & p & Hb & ->)]; simpl in *.
  - exfalso. destruct (run_seen _ _ _ _ E1 Hin) as [H|(w & Hw & Hl)].
    + now apply Hns.
    + now apply (Hpre w).
  - exists n, p. split; [exact Hb|].
    eapply run_mono; [exact E3|]. simpl. apply in_bucket_add_same.
Qed.

(** What [emit_subclasses] does to the buckets. *)
Lemma emit_perm bs :
  Permutation (flat_map sd_points (emit_subclasses bs)) (points_of bs).
Proof.
  unfold emit_subclasses, points_of.
  induction bs as [|[k ps] r IH]; simpl; [reflexivity|].
  rewrite flat_map_app, IH. apply Permutation_app_tail.
  pose proof (sort_by_perm line_le ps) as Hp.
  destruct (sort_by line_le ps) as [|q qs]; simpl in *.
  - exact Hp.
  - rewrite app_nil_r. exact Hp.
Qed.

Lemma emit_in bs sd :
  In sd (emit_subclasses bs) ->
  exists k ps, In (k, ps) bs /\ sd_subclassname sd = k /\
               sd_points sd = sort_by line_le ps.
Proof.
  unfold emit_subclasses. rewrite in_flat_map.
  intros ([k ps] & Hin & Hsd). simpl in Hsd.
  destruct (sort_by line_le ps) as [|q qs] eqn:E; [destruct Hsd|].
  destruct Hsd as [<-|[]]. exists k, ps. simpl. rewrite E. auto.
Qed.

Lemma emit_in_bucket n p bs :
  in_bucket n p bs ->
  exists sd, In sd (emit_subclasses bs) /\
             key_eqb (sd_subclassname sd) n = true /\ In p (sd_points sd).
Proof.
  intros (k & ps & Hin & Hk & Hp).
  assert (Hp' : In p (sort_by line_le ps))
    by (eapply Permutation_in; [symmetry; apply sort_by_perm | exact Hp]).
  exists {| sd_subclassname := k; sd_points := sort_by line_le ps |}.
  split; [|split; assumption].
  unfold emit_subclasses. rewrite in_flat_map.
  exists (k, ps). split; [exact Hin|]. simpl.
  destruct (sort_by line_le ps); [destruct Hp' | now left].
Qed.

Lemma line_le_total a b : line_le a b = false -> line_le b a = true.
Proof. unfold line_le. rewrite Z.leb_gt, Z.leb_le. lia. Qed.

Lemma process_config_inv cfg cd :
  process_config cfg = Ok cd ->
  exists st,
    foldM step_item {| subclass_points_map := []; seen_lines := ∅ |} (work cfg) = Ok st /\
    inv st /\ cd_subclasses cd = emit_subclasses (subclass_points_map st).
Proof.
  unfold process_config. intros E.
  apply bind_Ok_inv in E as (st & E1 & E2).
  apply process_subs_work in E1.
  exists st. split; [exact E1|]. split.
  - eapply run_inv; [|exact E1]. split; simpl; [constructor | intros p []].
  - inversion E2; reflexivity.
Qed.

(** [process_config] returns a class whenever ripgrep can be started and
    every match it reports yields a point. *)
Lemma foldM_returns {S X : Type} (step : S -> X -> outcome S) (xs : list X)
    (s : S) :
  (forall s0 x, In x xs -> exists s1, step s0 x = Ok s1) ->
  exists s', foldM step s xs = Ok s'.
Proof.
  revert s. induction xs as [|x xs IH]; intros s Hstep; simpl; [eauto|].
  destruct (Hstep s x (or_introl eq_refl)) as (s1 & ->). simpl.
  apply IH. intros s0 y Hy. apply Hstep. now right.
Qed.

Lemma process_config_returns (cfg : config) :
  (forall sc r, In sc (subclasses cfg) -> In r (rules sc) ->
     pattern r <> [] -> exists ms, run_rg_json (pattern r) = Ok ms) ->
  (forall w, In w (work cfg) -> exists np, build_point w.1.1 w.1.2 w.2 = Ok np) ->
  exists cd, process_config cfg = Ok cd.
Proof.
  intros Hrg Hbuild. unfold process_config.
  destruct (foldM_returns process_sub (subclasses cfg)
              {| subclass_points_map := []; seen_lines := ∅ |})
    as (st & ->); [|simpl; eauto].
  intros s0 sc Hsc. unfold process_sub. apply foldM_returns.
  intros s1 r Hr. unfold process_rule.
  destruct (pattern r) as [|c pat] eqn:Hpat; [eauto|].
  destruct (Hrg sc r Hsc Hr) as (ms & Hms); [congruence|].
  rewrite <- Hpat, Hms. simpl. apply foldM_returns.
  intros s2 m Hm. unfold process_match.
  destruct (decide (line_number m ∈ seen_lines s2)); [eauto|].
  destruct (Hbuild (sc, r, m)) as (np & Hnp).
  - unfold work. apply in_flat_map. exists sc. split; [exact Hsc|].
    unfold work_of_sub. apply in_flat_map. exists r. split; [exact Hr|].
    unfold work_of_rule. rewrite Hpat, <- Hpat, Hms. now apply in_map.
  - simpl in Hnp. rewrite Hnp. simpl. eauto.
Qed.

End Evaluation.
End Log2JsonFacts.

Module Log2JsonClaims.
Import Log2Json Log2JsonSpec Log2JsonFacts.

Section Claims.
Context {W : World}.

Lemma NoDup_map_eq {X Y : Type} (f : X -> Y) (l : list X) (a b : X) :
  NoDup (map f l) -> In a l -> In b l -> f a = f b -> a = b.
Proof.
  induction l as [|x l IH]; simpl; [intros _ []|].
  intros Hnd Ha Hb E. apply NoDup_cons in Hnd as [Hx Hnd].
  rewrite list_elem_of_In, in_map_iff in Hx.
  destruct Ha as [->|Ha], Hb as [->|Hb]; auto.
  - exfalso. apply Hx. exists b. auto.
  - exfalso. apply Hx. exists a. auto.
Qed.

(** C2. Within one evaluation of a configuration no two emitted points have
    the same line number, and the point emitted for a line is the one built,
    by [build_point], from the first match on that line in the order of the
    loops (groups, rules, matches): it sits in the subclass that this match
    resolved, with its cursor and layer. *)
Theorem first_match_wins_no_duplicate_lines (cfg : config) (cd : class_data) :
  process_config cfg = Ok cd ->
  NoDup (map p_line (class_points cd)) /\
  forall pre sc r m post,
    work cfg = pre ++ (sc, r, m) :: post ->
    (forall w, In w pre -> line_number w.2 <> line_number m) ->
    exists n p sd,
      build_point sc r m = Ok (n, p) /\
      In sd (cd_subclasses cd) /\
      key_eqb (sd_subclassname sd) n = true /\
      In p (sd_points sd) /\
      forall q, In q (class_points cd) -> p_line q = line_number m -> q = p.
Proof.
  intros E. destruct (process_config_inv _ _ E) as (st & Erun & [Hnd _] & Hsub).
  assert (Hnd' : NoDup (map p_line (class_points cd))).
  { unfold class_points. rewrite Hsub.
    now rewrite (Permutation_map p_line (emit_perm _)). }
  split; [exact Hnd'|].
  intros pre sc r m post Hw Hpre. rewrite Hw in Erun.
  destruct (run_first _ _ _ _ _ _ _ Erun) as (n & p & Hb & Hin).
  - simpl. set_solver.
  - exact Hpre.
  - destruct (emit_in_bucket _ _ _ Hin) as (sd & Hsd & Hk & Hp).
    exists n, p, sd. rewrite Hsub. repeat split; auto.
    intros q Hq Hl.
    assert (Hpc : In p (class_points cd)).
    { unfold class_points. rewrite Hsub, in_flat_map. eauto. }
    apply (NoDup_map_eq p_line _ _ _ Hnd' Hq Hpc).
    now rewrite Hl, (build_point_line _ _ _ _ _ Hb).
Qed.

(** C8. In every emitted class, the points of each subclass are in
    non-decreasing order of [line]. *)
Theorem subclass_points_sorted_by_line (cfg : config) (cd : class_data) :
  process_config cfg = Ok cd ->
  forall sd, In sd (cd_subclasses cd) ->
    StronglySorted (fun a b => p_line a <= p_line b) (sd_points sd).
Proof.
  intros E sd Hsd.
  destruct (process_config_inv _ _ E) as (st & _ & _ & Hsub).
  rewrite Hsub in Hsd. apply emit_in in Hsd as (k & ps & _ & _ & ->).
  apply Sorted_StronglySorted; [intros a b c; lia|].
  eapply Sorted_weaken; [|apply (sort_by_sorted line_le line_le_total ps)].
  intros a b Hab. unfold line_le in Hab. now apply Z.leb_le.
Qed.

(** C10. A rule whose [cursor] is a falsy literal and which has no
    [cursor_pattern] gives every line it processes the cursor [L<line>]:
    in the resolution, in the point built for the match, and in the class
    emitted by [process_config]. *)
Theorem falsy_literal_cursor_is_line_label
    (sc : sub_config) (r : rule) (m : rgmatch) (v : value) :
  cursor r = Lit v -> truthy v = false -> cursor_pattern r = [] ->
  resolve_cursor r m = Ok (VStr (lit "L" ++ str_of_int (line_number m))) /\
  (forall n p, build_point sc r m = Ok (n, p) ->
     p_line p = line_number m /\
     p_cursor p = lit "L" ++ str_of_int (line_number m)) /\
  (forall cfg cd pre post,
     process_config cfg = Ok cd ->
     work cfg = pre ++ (sc, r, m) :: post ->
     (forall w, In w pre -> line_number w.2 <> line_number m) ->
     exists p, In p (class_points cd) /\ p_line p = line_number m /\
               p_cursor p = lit "L" ++ str_of_int (line_number m)).
Proof.
  intros Hc Hv Hp.
  assert (Hres : resolve_cursor r m
                 = Ok (VStr (lit "L" ++ str_of_int (line_number m)))).
  { unfold resolve_cursor. rewrite Hc, Hv, Hp. reflexivity. }
  assert (Hbuild : forall n p, build_point sc r m = Ok (n, p) ->
            p_line p = line_number m /\
            p_cursor p = lit "L" ++ str_of_int (line_number m)).
  { intros n p Hb. split; [eapply build_point_line; eauto|].
    unfold build_point in Hb. rewrite Hres in Hb. simpl in Hb.
    apply bind_Ok_inv in Hb as (l & _ & Hb). now inversion Hb. }
  split; [exact Hres|]. split; [exact Hbuild|].
  intros cfg cd pre post E Hw Hpre.
  destruct (process_config_inv _ _ E) as (st & Erun & _ & Hsub).
  rewrite Hw in Erun.
  destruct (run_first _ _ _ _ _ _ _ Erun) as (n & p & Hb & Hin);
    [simpl; set_solver | exact Hpre |].
  destruct (emit_in_bucket _ _ _ Hin) as (sd & Hsd & _ & Hpin).
  exists p. destruct (Hbuild _ _ Hb) as [H1 H2]. repeat split; auto.
  unfold class_points. rewrite Hsub, in_flat_map. eauto.
Qed.


Lemma lstrip_In (c : N) (s : str) : In c (lstrip s) -> In c s.
Proof.
  induction s as [|x s IH]; simpl; [auto|].
  destruct (is_space x); [right; auto | auto].
Qed.

Lemma strip_In (c : N) (s : str) : In c (strip s) -> In c s.
Proof.
  unfold strip. rewrite <- in_rev. intros H.
  apply lstrip_In in H. rewrite <- in_rev in H. now apply lstrip_In.
Qed.

Lemma kept_underscore : kept 95 = true.
Proof. reflexivity. Qed.

Lemma sanitize_kept (s : str) : Forall (fun c => kept c = true) (sanitize s).
Proof.
  unfold sanitize. apply Forall_forall. intros c Hc.
  apply list_elem_of_In, in_map_iff in Hc as (x & <- & _).
  destruct (kept x) eqn:E; [exact E | apply kept_underscore].
Qed.

Lemma kept_ascii_in_class (c : N) :
  (c < 128)%N -> kept c = true -> in_cursor_class c = true.
Proof.
  unfold kept, is_word, in_cursor_class. intros Hc.
  apply N.ltb_lt in Hc. rewrite Hc.
  destruct (is_ascii_alnum c), (c =? 95)%N, (c =? 45)%N, (c =? 46)%N;
    simpl; auto.
Qed.

Lemma sanitize_ascii_class (s : str) :
  Forall (fun c => (c < 128)%N) s ->
  forallb in_cursor_class (sanitize s) = true.
Proof.
  unfold sanitize. induction 1 as [|c s Hc _ IH]; simpl; [reflexivity|].
  rewrite IH, andb_true_r.
  destruct (kept c) eqn:E; [now apply kept_ascii_in_class | reflexivity].
Qed.

Lemma forallb_take {X : Type} (f : X -> bool) (k : nat) (l : list X) :
  forallb f l = true -> forallb f (take k l) = true.
Proof.
  revert k; induction l as [|x l IH]; intros [|k]; simpl; auto.
  intros H. apply andb_true_iff in H as [-> H]. simpl. auto.
Qed.

(** C1, as the code has it. Only a cursor cut out of the line through
    [cursor_pattern] is sanitized: the text found is stripped, every
    character outside [[\w\-_.]] becomes [_], at most 50 characters are
    kept, and [cursor_prefix] is put in front as it is; for ASCII text the
    sanitized part matches [^[A-Za-z0-9_.-]{0,50}$]. A literal or computed
    cursor is emitted as [str()] of its value, and the fallback is
    [L<line>]. *)
Theorem only_extracted_cursor_is_sanitized
    (sc : sub_config) (r : rule) (m : rgmatch) (n : value) (p : point) :
  build_point sc r m = Ok (n, p) ->
  match cursor r with
  | Fun f =>
      p_cursor p =
        py_str (resolve_callable (Fun f) (line_text m) m
                  (VStr (lit "L" ++ str_of_int (line_number m))))
  | Lit v =>
      if truthy v then p_cursor p = py_str v
      else
        p_cursor p = lit "L" ++ str_of_int (line_number m) \/
        exists g e,
          cursor_pattern r <> [] /\
          re_search (cursor_pattern r) (line_text m) = ReFound g /\
          e = take 50 (sanitize (strip g)) /\
          p_cursor p = cursor_prefix r ++ e /\
          (length e <= 50)%nat /\
          Forall (fun c => kept c = true) e /\
          (Forall (fun c => (c < 128)%N) g -> cursor_regex_match e = true)
  end.
Proof.
  unfold build_point. intros Hb.
  apply bind_Ok_inv in Hb as (c & Hc & Hb).
  apply bind_Ok_inv in Hb as (l & _ & Hb).
  inversion Hb; subst n p; clear Hb; simpl.
  unfold resolve_cursor in Hc.
  destruct (cursor r) as [v|f]; [|now inversion Hc].
  destruct (truthy v); [now inversion Hc|].
  destruct (cursor_pattern r) as [|c0 pat] eqn:Hpat; [inversion Hc; now left|].
  apply bind_Ok_inv in Hc as (e & He & Hc). inversion Hc; subst c; clear Hc.
  simpl. unfold extract_cursor in He.
  destruct (re_search (c0 :: pat) (line_text m)) as [| |g] eqn:Hre;
    try discriminate.
  - inversion He; subst e. now left.
  - inversion He as [He']. destruct (take 50 (sanitize (strip g))) eqn:Ht;
      [now left|].
    right. exists g, (take 50 (sanitize (strip g))).
    rewrite Ht. split; [discriminate|]. do 3 (split; [reflexivity|]).
    rewrite <- Ht. split; [|split].
    + rewrite length_take. lia.
    + apply Forall_take, sanitize_kept.
    + intros Hg. unfold cursor_regex_match, class_run.
      apply orb_true_iff; left. apply andb_true_iff; split.
      * apply Nat.leb_le. rewrite length_take. lia.
      * apply forallb_take, sanitize_ascii_class.
        apply Forall_forall. intros x Hx.
        apply list_elem_of_In, strip_In, list_elem_of_In in Hx.
        revert x Hx. now apply Forall_forall.
Qed.

(** C5, as the code has it. The resolved layer goes through [int()]: when the
    layer resolver raises, the layer is 1; when the resolved value converts,
    the layer is its integer; when it does not convert, the error of [int()]
    is not replaced by a default: no point is built and the evaluation of the
    configuration ends with the error. *)
Theorem layer_defaults_only_when_resolver_raises
    (sc : sub_config) (r : rule) (m : rgmatch) :
  (forall f, layer r = Fun f -> f (line_text m) m = Raises ->
     resolve_layer r m = Ok 1) /\
  (forall z n p,
     py_int (resolve_callable (layer r) (line_text m) m (VInt 1)) = Ok z ->
     build_point sc r m = Ok (n, p) -> p_layer p = z) /\
  (forall e,
     py_int (resolve_callable (layer r) (line_text m) m (VInt 1)) = Raise e ->
     resolve_layer r m = Raise e /\
     (forall np, build_point sc r m <> Ok np) /\
     (forall cfg pre post cd,
        work cfg = pre ++ (sc, r, m) :: post ->
        (forall w, In w pre -> line_number w.2 <> line_number m) ->
        process_config cfg <> Ok cd)).
Proof.
  split; [|split].
  - intros f Hl Hf. unfold resolve_layer, resolve_callable.
    rewrite Hl, Hf. reflexivity.
  - intros z n p Hz Hb. unfold build_point in Hb.
    apply bind_Ok_inv in Hb as (c & _ & Hb).
    apply bind_Ok_inv in Hb as (l & Hl & Hb).
    unfold resolve_layer in Hl. rewrite Hz in Hl.
    inversion Hl; subst l. now inversion Hb.
  - intros e He.
    assert (Hnb : forall np, build_point sc r m <> Ok np).
    { intros [n p] Hb. unfold build_point in Hb.
      apply bind_Ok_inv in Hb as (c & _ & Hb).
      apply bind_Ok_inv in Hb as (l & Hl & _).
      unfold resolve_layer in Hl. rewrite He in Hl. discriminate. }
    split; [exact He|]. split; [exact Hnb|].
    intros cfg pre post cd Hw Hpre E.
    destruct (process_config_inv _ _ E) as (st & Erun & _ & _).
    rewrite Hw in Erun.
    destruct (run_first _ _ _ _ _ _ _ Erun) as (n & p & Hb & _);
      [simpl; set_solver | exact Hpre |].
    now apply (Hnb (n, p)).
Qed.

(** *** The ripgrep adapter *)

Lemma process_config_without_rg (cfg : config) :
  (forall pat, rg_run pat = ExecNotFound) ->
  process_config cfg =
    if has_active_rule cfg then Exit 1
    else Ok {| cd_classname := classname cfg; cd_subclasses := [] |}.
Proof.
  intros Hrg. unfold process_config, has_active_rule.
  assert (Hrule : forall sc r st,
            process_rule sc st r = if has_pattern r then Exit 1 else Ok st).
  { intros sc r st. unfold process_rule, has_pattern, run_rg_json.
    destruct (pattern r); [reflexivity|]. now rewrite Hrg. }
  assert (Hsub : forall sc st,
            process_sub st sc
            = if existsb has_pattern (rules sc) then Exit 1 else Ok st).
  { intros sc st. unfold process_sub.
    induction (rules sc) as [|r rs IH]; simpl; [reflexivity|].
    rewrite Hrule. destruct (has_pattern r); simpl; [reflexivity | exact IH]. }
  assert (Hall : forall subs st,
            foldM process_sub st subs
            = if existsb (fun sc => existsb has_pattern (rules sc)) subs
              then Exit 1 else Ok st).
  { induction subs as [|sc subs IH]; intros st; simpl; [reflexivity|].
    rewrite Hsub. destruct (existsb has_pattern (rules sc)); simpl; auto. }
  rewrite Hall.
  now destruct (existsb _ (subclasses cfg)).
Qed.

Lemma run_configs_without_rg (files : list str) (acc : collected) :
  (forall pat, rg_run pat = ExecNotFound) ->
  (exists f c, In f files /\ config_at f = Module_ c /\
               has_active_rule c = true) ->
  foldM run_config acc files = Exit 1.
Proof.
  intros Hrg. revert acc.
  induction files as [|f0 files IH]; intros acc (f & c & Hin & Hf & Hc);
    [destruct Hin|].
  simpl. unfold run_config at 1, load_config.
  destruct (config_at f0) as [| | |c0] eqn:E0; simpl; try reflexivity.
  rewrite (process_config_without_rg _ Hrg).
  destruct (has_active_rule c0) eqn:Ha; simpl; [reflexivity|].
  apply IH. destruct Hin as [->|Hin]; [congruence|]. eauto.
Qed.

(** C7, as the code has it. A missing executable ends [run_rg_json], the
    evaluation of a configuration that calls it, and [main] with exit status
    1. A process that ran is never a failure, whatever its exit status: the
    matches are read from its output, so an empty output gives the empty
    list; another exception while starting it gives the empty list too. *)
Theorem missing_rg_is_fatal_exit_status_is_ignored (pat : str) :
  (rg_run pat = ExecNotFound -> run_rg_json pat = Exit 1) /\
  (forall code lines, rg_run pat = Completed code lines ->
     exists ms, run_rg_json pat = Ok ms /\
       (Forall (fun l => forall n t s, l <> LineJson (EvMatch n t s)) lines ->
        ms = [])) /\
  (rg_run pat = ExecError -> run_rg_json pat = Ok []) /\
  ((forall q, rg_run q = ExecNotFound) ->
   (forall cfg, has_active_rule cfg = true -> process_config cfg = Exit 1) /\
   (forall files name,
      (exists f c, In f (expand_config_patterns files) /\
                   config_at f = Module_ c /\ has_active_rule c = true) ->
      main files name = Exit 1)).
Proof.
  unfold run_rg_json. split; [|split; [|split]].
  - now intros ->.
  - intros code lines ->.
    destruct (collect_matches lines []) as [ms|] eqn:E.
    + exists ms. split; [reflexivity|]. intros Hno.
      assert (Hgen : forall acc ms', collect_matches lines acc = Some ms' ->
                ms' = acc).
      { clear E. induction Hno as [|l ls Hl _ IH]; intros acc ms' E; simpl in E.
        - now inversion E.
        - destruct l as [| |[|k t s|]]; auto; try discriminate.
          now destruct (Hl k t s). }
      exact (Hgen _ _ E).
    + exists []. split; [reflexivity | auto].
  - now intros ->.
  - intros Hrg. split.
    + intros cfg Ha. now rewrite (process_config_without_rg _ Hrg), Ha.
    + intros files name Hex. unfold main.
      destruct log_file_exists; cbn [negb]; [|reflexivity].
      destruct files as [|f0 fs]; [reflexivity|].
      destruct (expand_config_patterns (f0 :: fs)) as [|g gs] eqn:Eg;
        [reflexivity|].
      now rewrite (run_configs_without_rg (g :: gs) _ Hrg Hex).
Qed.

(** C4, as the code has it. A configuration that cannot be loaded (no such
    file, not a [.py] file, or an error while it is executed) ends
    [load_config] with [sys.exit(1)], and with it the whole run: [main]
    never completes when one of its configuration files fails to load, and
    exits with status 1 once the files before it have been processed. *)
Theorem unloadable_config_aborts_run (f : str) :
  (forall c, config_at f <> Module_ c) ->
  load_config f = Exit 1 /\
  (forall acc rest, foldM run_config acc (f :: rest) = Exit 1) /\
  (forall files name pre post acc,
     expand_config_patterns files = pre ++ f :: post ->
     foldM run_config no_points pre = Ok acc ->
     main files name = Exit 1) /\
  (forall files name out,
     In f (expand_config_patterns files) -> main files name <> Ok out).
Proof.
  intros Hf.
  assert (Hload : load_config f = Exit 1).
  { unfold load_config. destruct (config_at f) as [| | |c] eqn:E; auto.
    now destruct (Hf c). }
  assert (Hrun : forall acc rest, foldM run_config acc (f :: rest) = Exit 1).
  { intros acc rest. simpl. unfold run_config at 1. now rewrite Hload. }
  split; [exact Hload|]. split; [exact Hrun|]. split.
  - intros files name pre post acc He Hpre. unfold main.
    destruct log_file_exists; cbn [negb]; [|reflexivity].
    destruct files as [|f0 fs]; [reflexivity|].
    rewrite He. destruct (pre ++ f :: post) as [|g gs] eqn:Eg; [reflexivity|].
    rewrite <- Eg, foldM_app. unfold no_points in Hpre. rewrite Hpre. simpl.
    unfold run_config at 1. now rewrite Hload.
  - intros files name out Hin. unfold main.
    destruct log_file_exists; cbn [negb]; [|discriminate].
    destruct files as [|f0 fs]; [discriminate|].
    destruct (expand_config_patterns (f0 :: fs)) as [|g gs] eqn:Eg;
      [destruct Hin|].
    apply in_split in Hin as (pre & post & ->).
    rewrite foldM_app.
    destruct (foldM run_config _ pre) as [acc| |]; simpl; try discriminate.
    unfold run_config at 1. rewrite Hload. simpl. discriminate.
Qed.

(** *** The hooks *)

Lemma run_hook_log (st : run_state) (cb : str * hook) :
  exists more, rs_log (run_hook st cb) = rs_log st ++ MsgRunning cb.1 :: more.
Proof.
  unfold run_hook. destruct (cb.2 (rs_heap st) (rs_result st)) as [h' [l|]];
    simpl; eauto.
Qed.

Lemma run_hooks_log_grows (cbs : list (str * hook)) (st : run_state) :
  exists more, rs_log (run_hooks cbs st) = rs_log st ++ more.
Proof.
  unfold run_hooks. revert st.
  induction cbs as [|cb cbs IH]; intros st; simpl.
  - exists []. now rewrite app_nil_r.
  - destruct (IH (run_hook st cb)) as (more & ->).
    destruct (run_hook_log st cb) as (m1 & ->).
    rewrite <- app_assoc. eauto.
Qed.

Lemma run_hooks_all_run (cbs : list (str * hook)) (st : run_state) :
  forall cb, In cb cbs -> In (MsgRunning cb.1) (rs_log (run_hooks cbs st)).
Proof.
  revert st. induction cbs as [|c cbs IH]; intros st cb; [intros []|].
  change (run_hooks (c :: cbs) st) with (run_hooks cbs (run_hook st c)).
  intros [E|Hin]; [subst c|now apply IH].
  destruct (run_hooks_log_grows cbs (run_hook st cb)) as (more & ->).
  destruct (run_hook_log st cb) as (m1 & ->).
  rewrite !in_app_iff. left; right; now left.
Qed.

(** C3, as the code has it. When a hook raises, [result] keeps referring to
    the object that was handed to the hook, so the document carried forward
    is that object as the hook left it: exactly the earlier document when
    the hook changed nothing in place before raising. A warning follows the
    hook's start message, and every later hook is still run, on that
    state. *)
Theorem failing_hook_keeps_reference
    (f : str) (h : hook) (rest : list (str * hook)) (st : run_state)
    (left_behind : heap) :
  h (rs_heap st) (rs_result st) = (left_behind, HRaise) ->
  let st1 := run_hook st (f, h) in
  rs_result st1 = rs_result st /\
  rs_heap st1 = left_behind /\
  rs_log st1 = rs_log st ++ [MsgRunning f; MsgFailed f] /\
  (left_behind !! rs_result st = rs_heap st !! rs_result st ->
   rs_heap st1 !! rs_result st1 = rs_heap st !! rs_result st) /\
  run_hooks ((f, h) :: rest) st = run_hooks rest st1 /\
  (forall cb, In cb rest ->
     In (MsgRunning cb.1) (rs_log (run_hooks ((f, h) :: rest) st))).
Proof.
  intros Hh. cbv zeta.
  assert (E1 : run_hook st (f, h)
               = {| rs_heap := left_behind; rs_result := rs_result st;
                    rs_log := rs_log st ++ [MsgRunning f; MsgFailed f] |}).
  { unfold run_hook. simpl. now rewrite Hh. }
  change (run_hooks ((f, h) :: rest) st)
    with (run_hooks rest (run_hook st (f, h))).
  rewrite E1. simpl. repeat (split; [reflexivity|]).
  split; [auto|]. split; [reflexivity|].
  intros cb Hcb. rewrite <- E1.
  change (run_hooks rest (run_hook st (f, h)))
    with (run_hooks ((f, h) :: rest) st).
  apply run_hooks_all_run. now right.
Qed.

End Claims.

(** *** The theorems at work in [Demo.world] *)

Import Demo.

Lemma first_match_wins_no_duplicate_lines_witness :
  process_config ab_config = Ok ab_class /\
  map (fun p => (p_line p, p_cursor p, p_layer p)) (class_points ab_class)
  = [(5, lit "CUR_A", 2)] /\
  NoDup (map p_line (class_points ab_class)) /\
  forall pre sc r m post,
    work ab_config = pre ++ (sc, r, m) :: post ->
    (forall w, In w pre -> line_number w.2 <> line_number m) ->
    exists n p sd,
      build_point sc r m = Ok (n, p) /\
      In sd (cd_subclasses ab_class) /\
      key_eqb (sd_subclassname sd) n = true /\
      In p (sd_points sd) /\
      forall q, In q (class_points ab_class) -> p_line q = line_number m ->
                q = p.
Proof.
  assert (H : process_config ab_config = Ok ab_class)
    by (vm_compute; reflexivity).
  split; [exact H|]. split; [reflexivity|].
  exact (first_match_wins_no_duplicate_lines ab_config ab_class H).
Defined.

Lemma subclass_points_sorted_by_line_witness :
  process_config errors_config = Ok errors_class /\
  map (fun sd => map p_line (sd_points sd)) (cd_subclasses errors_class)
  = [[1; 3]] /\
  forall sd, In sd (cd_subclasses errors_class) ->
    StronglySorted (fun a b => p_line a <= p_line b) (sd_points sd).
Proof.
  assert (H : process_config errors_config = Ok errors_class)
    by (vm_compute; reflexivity).
  split; [exact H|]. split; [reflexivity|].
  exact (subclass_points_sorted_by_line errors_config errors_class H).
Defined.

Lemma falsy_literal_cursor_is_line_label_witness :
  cursor empty_cursor_rule = Lit (VStr []) /\
  truthy (VStr []) = false /\
  cursor_pattern empty_cursor_rule = [] /\
  resolve_cursor empty_cursor_rule boot_match = Ok (VStr (lit "L7")).
Proof.
  do 3 (split; [reflexivity|]).
  exact (proj1 (falsy_literal_cursor_is_line_label
                  (boot_group empty_cursor_rule) empty_cursor_rule boot_match
                  (VStr []) eq_refl eq_refl eq_refl)).
Defined.

(** The cursor cut out of ["boot: init #7"] by [cursor_pattern]. *)
Lemma only_extracted_cursor_is_sanitized_witness :
  let p := {| p_cursor := lit "boot__init__7"; p_msg := lit "boot: init #7";
              p_line := 7; p_timestamp := 0; p_layer := 1 |} in
  build_point (boot_group extracting_rule) extracting_rule boot_match
  = Ok (VStr (lit "Boot"), p) /\
  (p_cursor p = lit "L7" \/
   exists g e,
     cursor_pattern extracting_rule <> [] /\
     re_search (cursor_pattern extracting_rule) (line_text boot_match)
     = ReFound g /\
     e = take 50 (sanitize (strip g)) /\
     p_cursor p = cursor_prefix extracting_rule ++ e /\
     (length e <= 50)%nat /\
     Forall (fun c => kept c = true) e /\
     (Forall (fun c => (c < 128)%N) g -> cursor_regex_match e = true)).
Proof.
  intros p.
  assert (H : build_point (boot_group extracting_rule) extracting_rule
                boot_match = Ok (VStr (lit "Boot"), p))
    by (vm_compute; reflexivity).
  split; [exact H|].
  exact (only_extracted_cursor_is_sanitized
           (boot_group extracting_rule) extracting_rule boot_match _ p H).
Defined.

(** C1 fails on a literal cursor: ["my cursor"] is emitted with its blank. *)
Lemma literal_cursor_is_not_sanitized :
  exists cd,
    process_config blank_cursor_config = Ok cd /\
    map p_cursor (class_points cd) = [lit "my cursor"; lit "my cursor"] /\
    cursor_regex_match (lit "my cursor") = false.
Proof.
  eexists. split; [vm_compute; reflexivity|]. split; reflexivity.
Qed.

Lemma layer_defaults_only_when_resolver_raises_witness :
  (exists f, layer raising_layer_rule = Fun f /\
             f (line_text boot_match) boot_match = Raises) /\
  resolve_layer raising_layer_rule boot_match = Ok 1.
Proof.
  split; [eexists; split; reflexivity|].
  exact (proj1 (layer_defaults_only_when_resolver_raises
                  (boot_group raising_layer_rule) raising_layer_rule
                  boot_match) _ eq_refl eq_refl).
Defined.

(** C5 fails on a layer that does not convert: the resolver returns [None],
    and the evaluation ends with the [TypeError] of [int(None)]. *)
Lemma unconvertible_layer_raises :
  resolve_callable (layer none_layer_rule) (line_text boot_match) boot_match
    (VInt 1) = VNone /\
  resolve_layer none_layer_rule boot_match = Raise TypeError /\
  process_config none_layer_config = Raise TypeError.
Proof. repeat split; vm_compute; reflexivity. Qed.

Lemma missing_rg_is_fatal_exit_status_is_ignored_witness :
  rg_run (World := world_without_rg) (lit "ERROR") = ExecNotFound /\
  run_rg_json (W := world_without_rg) (lit "ERROR") = Exit 1 /\
  main (W := world_without_rg) [lit "errors.py"] (lit "run") = Exit 1.
Proof.
  split; [reflexivity|].
  pose proof (missing_rg_is_fatal_exit_status_is_ignored
                (W := world_without_rg) (lit "ERROR")) as (H1 & _ & _ & H4).
  split; [exact (H1 eq_refl)|].
  apply (proj2 (H4 (fun _ => eq_refl))).
  exists (lit "errors.py"), errors_config.
  split; [now left | split; reflexivity].
Defined.

(** C7 fails on an exit status that reports an error: ripgrep rejects the
    pattern ["("] with status 2, and the run goes on with no matches. *)
Lemma error_exit_status_is_not_fatal :
  rg_run (lit "(") = Completed 2 [] /\
  run_rg_json (lit "(") = Ok [] /\
  process_config rejected_pattern_config
  = Ok {| cd_classname := lit "Rejected"; cd_subclasses := [] |} /\
  main [lit "rejected.py"; lit "errors.py"] (lit "run")
  = Ok {| written := Some {| r_name := lit "run"; r_all := [errors_class] |};
          messages := [] |}.
Proof. repeat split; vm_compute; reflexivity. Qed.

Lemma unloadable_config_aborts_run_witness :
  (forall c, config_at (lit "broken.py") <> Module_ c) /\
  load_config (lit "broken.py") = Exit 1 /\
  main [lit "errors.py"; lit "broken.py"; lit "ab.py"] (lit "run") = Exit 1.
Proof.
  assert (H : forall c, config_at (lit "broken.py") <> Module_ c)
    by (intros c; vm_compute; discriminate).
  split; [exact H|].
  pose proof (unloadable_config_aborts_run (lit "broken.py") H)
    as (H1 & _ & H3 & _).
  split; [exact H1|].
  apply (H3 _ _ [lit "errors.py"] [lit "ab.py"]
            {| all_data := [errors_class]; process_json_callbacks := [] |});
    vm_compute; reflexivity.
Defined.

(** C4 fails: a configuration that does not load is not skipped. With
    [broken.py] among the files the run exits with status 1; without it the
    same run writes its document. *)
Lemma unloadable_config_is_not_skipped :
  config_at (lit "broken.py") = ExecRaises /\
  main [lit "broken.py"; lit "errors.py"] (lit "run") = Exit 1 /\
  main [lit "errors.py"] (lit "run")
  = Ok {| written := Some {| r_name := lit "run"; r_all := [errors_class] |};
          messages := [] |}.
Proof. repeat split; vm_compute; reflexivity. Qed.

Lemma failing_hook_keeps_reference_witness :
  let doc := {| r_name := lit "run"; r_all := [errors_class] |} in
  let st := {| rs_heap := {[ 0%nat := doc ]}; rs_result := 0%nat;
               rs_log := [] |} in
  raising_at_once (rs_heap st) (rs_result st) = (rs_heap st, HRaise) /\
  let st1 := run_hook st (lit "raise.py", raising_at_once) in
  rs_result st1 = 0%nat /\
  rs_heap st1 !! 0%nat = Some doc /\
  rs_log st1 = [MsgRunning (lit "raise.py"); MsgFailed (lit "raise.py")] /\
  In (MsgRunning (lit "empty.py"))
     (rs_log (run_hooks [(lit "raise.py", raising_at_once);
                         (lit "empty.py", emptying)] st)).
Proof.
  intros doc st.
  assert (H : raising_at_once (rs_heap st) (rs_result st)
              = (rs_heap st, HRaise)) by reflexivity.
  split; [exact H|].
  pose proof (failing_hook_keeps_reference (lit "raise.py") raising_at_once
                [(lit "empty.py", emptying)] st (rs_heap st) H)
    as (H1 & H2 & H3 & H4 & _ & H6).
  intros st1. split; [exact H1|]. split; [|split; [exact H3|]].
  - exact (H4 eq_refl).
  - apply (H6 (lit "empty.py", emptying)). now left.
Defined.

(** C3 fails on a hook that changes the document in place before it raises:
    the document carried forward, and written at the end, has the new name. *)
Lemma failing_hook_leaves_its_changes :
  let doc := {| r_name := lit "run"; r_all := [errors_class] |} in
  let st := {| rs_heap := {[ 0%nat := doc ]}; rs_result := 0%nat;
               rs_log := [] |} in
  (renaming_then_raising (rs_heap st) (rs_result st)).2 = HRaise /\
  rs_heap st !! rs_result st = Some doc /\
  (let st1 := run_hook st (lit "mutate.py", renaming_then_raising) in
   rs_heap st1 !! rs_result st1
   = Some {| r_name := lit "changed"; r_all := [errors_class] |}) /\
  main [lit "mutate.py"] (lit "run")
  = Ok {| written := Some {| r_name := lit "changed";
                             r_all := [errors_class] |};
          messages := [MsgRunning (lit "mutate.py");
                       MsgFailed (lit "mutate.py")] |}.
Proof. repeat split; vm_compute; reflexivity. Qed.

End Log2JsonClaims.

(* ===================================================================== *)
(** ** Facts about [defaultdict(list)] *)
(* ===================================================================== *)

Section DefaultDict.
Context {K V : Type} `{EqDecision K}.
Implicit Types (d : list (K * list V)) (xs : list (K * V)).











End DefaultDict.



(* ===================================================================== *)
(** ** json2html.py: the series *)
(* ===================================================================== *)

Module Json2HtmlFacts.
Import Json2Html Json2HtmlSpec.










Section Series.
Context {A : Arith}.


End Series.
End Json2HtmlFacts.

(* ===================================================================== *)
(** ** json2html.py: groups and the spread *)
(* ===================================================================== *)

Lemma enumerate_lookup {X : Type} (l : list X) (i j : nat) (x : X) :
  enumerate l !! i = Some (j, x) <-> j = i /\ l !! i = Some x.
Proof.
  unfold enumerate. rewrite lookup_zip_Some, lookup_seq. split.
  - intros [[-> _] ?]. auto.
  - intros [-> H]. split; [|exact H]. split; [reflexivity|].
    now apply lookup_lt_Some in H.
Qed.






Lemma StronglySorted_lookup_lt {X : Type} (R : X -> X -> Prop) (l : list X)
    (i j : nat) (x y : X) :
  StronglySorted R l -> (i < j)%nat -> l !! i = Some x -> l !! j = Some y ->
  R x y.
Proof.
  intros Hs. revert i j. induction Hs as [|a l Hs IH Hall]; intros i j Hij Hi Hj.
  - inversion Hi.
  - destruct j as [|j]; [lia|]. simpl in Hj. destruct i as [|i].
    + inversion Hi; subst. apply (proj1 (Forall_forall _ _) Hall).
      eapply list_elem_of_lookup_2; eauto.
    + simpl in Hi. apply (IH i j); auto. lia.
Qed.

Module Json2HtmlSpread.
Import Json2Html Json2HtmlSpec.

Section Spread.
Context {A : Arith}.









(** *** Updates through the positions *)











End Spread.







End Json2HtmlSpread.

Module Json2HtmlClaims.
Import Json2Html Json2HtmlSpec Json2HtmlFacts Json2HtmlSpread.

Section Series.
Context {A : Arith}.


End Series.


(** *** The theorems at work on the documents of [Demo] *)

Import Demo.




(** The scenario of four points in one millisecond, in the arithmetic of the
    code: four different display times, ascending with the lines. *)
Example four_points_in_binary64 :
  map (fun i =>
         (line <$> lm_points (generate_html (A := binary64) four_doc) !! i,
          display_float (lm_points (generate_html four_doc)) i))
      [0; 1; 2; 3]%nat
  = [ (Some 1, Some 0x1.90f9e8e1928cdp+40%float);
      (Some 2, Some 0x1.90f9e8e192d9ap+40%float);
      (Some 3, Some 0x1.90f9e8e193267p+40%float);
      (Some 4, Some 0x1.90f9e8e193733p+40%float) ].
Proof. vm_compute. reflexivity. Qed.

End Json2HtmlClaims.

(* ===================================================================== *)
(** ** More facts about text, folds, dictionaries and sorted lists *)
(* ===================================================================== *)

(** [str.strip] leaves no white space at either end. *)
Lemma lstrip_head (s : str) (c : N) (r : str) :
  lstrip s = c :: r -> is_space c = false.
Proof.
  induction s as [|a s IH]; simpl; [discriminate|].
  destruct (is_space a) eqn:E; [exact IH|].
  intros H; inversion H; subst. exact E.
Qed.

Lemma lstrip_suffix (s : str) : exists pre, s = pre ++ lstrip s.
Proof.
  induction s as [|a s IH]; simpl; [now exists []|].
  destruct (is_space a).
  - destruct IH as (pre & E). exists (a :: pre). simpl. now rewrite <- E.
  - now exists [].
Qed.

Lemma lstrip_fixed (s : str) :
  (forall c r, s = c :: r -> is_space c = false) -> lstrip s = s.
Proof.
  destruct s as [|a s]; simpl; [reflexivity|].
  intros H. now rewrite (H a s eq_refl).
Qed.

Lemma strip_no_leading_space (s : str) (c : N) (r : str) :
  strip s = c :: r -> is_space c = false.
Proof.
  unfold strip. intros E.
  destruct (lstrip_suffix (rev (lstrip s))) as (pre & Hp).
  apply (f_equal (@rev N)) in Hp. rewrite rev_involutive, rev_app_distr, E in Hp.
  simpl in Hp. eapply lstrip_head. exact Hp.
Qed.

Lemma strip_no_trailing_space (s : str) (c : N) (r : str) :
  strip s = r ++ [c] -> is_space c = false.
Proof.
  unfold strip. intros E.
  apply (f_equal (@rev N)) in E. rewrite rev_involutive, rev_app_distr in E.
  simpl in E. eapply lstrip_head. exact E.
Qed.

Lemma strip_idempotent (s : str) : strip (strip s) = strip s.
Proof.
  assert (H1 : lstrip (strip s) = strip s).
  { apply lstrip_fixed. intros c r. apply strip_no_leading_space. }
  unfold strip at 1. rewrite H1.
  assert (H2 : lstrip (rev (strip s)) = rev (strip s)).
  { apply lstrip_fixed. intros c r E.
    apply (f_equal (@rev N)) in E. rewrite rev_involutive in E. simpl in E.
    eapply strip_no_trailing_space. exact E. }
  rewrite H2. apply rev_involutive.
Qed.

Lemma foldM_filter {S X : Type} (step : S -> X -> outcome S) (keep : X -> bool)
    (xs : list X) : forall s,
  (forall s0 x, keep x = false -> step s0 x = Ok s0) ->
  foldM step s (List.filter keep xs) = foldM step s xs.
Proof.
  intros s H. revert s. induction xs as [|x xs IH]; intros s; simpl; [reflexivity|].
  destruct (keep x) eqn:E; simpl.
  - destruct (step s x); simpl; auto.
  - rewrite (H s x E). simpl. apply IH.
Qed.

Lemma foldM_map_ext {S X Y : Type} (step : S -> X -> outcome S)
    (step' : S -> Y -> outcome S) (f : Y -> X) (ys : list Y) : forall s,
  (forall s0 y, step s0 (f y) = step' s0 y) ->
  foldM step s (map f ys) = foldM step' s ys.
Proof.
  intros s H. revert s. induction ys as [|y ys IH]; intros s; simpl; [reflexivity|].
  rewrite H. destruct (step' s y); simpl; auto.
Qed.

Lemma dd_append_keys_Forall {K V : Type} (eqb : K -> K -> bool) (k : K) (v : V)
    (P : K -> Prop) (d : list (K * list V)) :
  P k -> Forall P (map fst d) -> Forall P (map fst (dd_append eqb k v d)).
Proof.
  intros Hk. induction d as [|[k' vs] r IH]; simpl; intros H.
  - constructor; [exact Hk | constructor].
  - inversion H; subst. destruct (eqb k' k); simpl; constructor; auto.
Qed.

Lemma dd_append_distinct {K V : Type} (eqb : K -> K -> bool) (k : K) (v : V)
    (d : list (K * list V)) :
  ForallOrdPairs (fun a b => eqb a b = false) (map fst d) ->
  ForallOrdPairs (fun a b => eqb a b = false) (map fst (dd_append eqb k v d)).
Proof.
  induction d as [|[k' vs] r IH]; simpl; intros H.
  - constructor; constructor.
  - inversion H; subst. destruct (eqb k' k) eqn:E; simpl.
    + constructor; assumption.
    + constructor; [|auto]. apply dd_append_keys_Forall; assumption.
Qed.

Lemma dd_append_nonempty {K V : Type} (eqb : K -> K -> bool) (k : K) (v : V)
    (d : list (K * list V)) :
  Forall (fun kp => kp.2 <> []) d ->
  Forall (fun kp => kp.2 <> []) (dd_append eqb k v d).
Proof.
  induction d as [|[k' vs] r IH]; simpl; intros H.
  - constructor; [discriminate | constructor].
  - inversion H; subst. destruct (eqb k' k); constructor; auto.
    simpl. intros E. now apply app_eq_nil in E as [_ E].
Qed.

Lemma ForallOrdPairs_lookup {X : Type} (R : X -> X -> Prop) (l : list X) :
  ForallOrdPairs R l ->
  forall (i j : nat) a b, (i < j)%nat -> l !! i = Some a -> l !! j = Some b -> R a b.
Proof.
  induction 1 as [|x l Hx Hl IH]; intros i j a b Hij Ha Hb.
  - discriminate.
  - destruct j as [|j]; [lia|]. destruct i as [|i]; simpl in *.
    + inversion Ha; subst. rewrite Forall_forall in Hx. apply Hx.
      eapply list_elem_of_lookup_2; exact Hb.
    + eapply (IH i j); [lia | exact Ha | exact Hb].
Qed.

Lemma key_eqb_sym (a b : value) : key_eqb a b = key_eqb b a.
Proof.
  destruct a as [|x|x|x], b as [|y|y|y]; simpl; try reflexivity;
    try apply Z.eqb_sym.
  destruct (decide (x = y)) as [->|Hn]; [reflexivity|].
  rewrite !bool_decide_eq_false_2; [reflexivity | congruence | exact Hn].
Qed.





Lemma sort_by_sorted_id {X : Type} (le : X -> X -> bool) (l : list X) :
  Sorted (fun a b => le a b = true) l -> sort_by le l = l.
Proof.
  induction 1 as [|x r Hs IH Hhd]; [reflexivity|].
  change (sort_by le (x :: r)) with (insert_by le x (sort_by le r)). rewrite IH.
  destruct Hhd as [|y r' Hxy]; simpl; [reflexivity|]. now rewrite Hxy.
Qed.

Lemma StronglySorted_of_lookup {X : Type} (R : X -> X -> Prop) (l : list X) :
  (forall (i j : nat) a b, (i < j)%nat -> l !! i = Some a -> l !! j = Some b -> R a b) ->
  StronglySorted R l.
Proof.
  induction l as [|x l IH]; intros H; constructor.
  - apply IH. intros i j a b Hij Ha Hb. apply (H (S i) (S j)); [lia | exact Ha | exact Hb].
  - rewrite Forall_forall. intros y Hy.
    apply list_elem_of_lookup_1 in Hy as (j & Hj).
    apply (H 0%nat (S j)); [lia | reflexivity | exact Hj].
Qed.

Lemma StronglySorted_weaken {X : Type} (R R' : X -> X -> Prop) (l : list X) :
  (forall a b, R a b -> R' a b) -> StronglySorted R l -> StronglySorted R' l.
Proof.
  intros HR. induction 1 as [|x l Hs IH Hx]; constructor; [exact IH|].
  eapply List.Forall_impl; [|exact Hx]. intros b. apply HR.
Qed.


(* ===================================================================== *)
(** ** log2json.py: the command line, the files, the hooks and the points *)
(* ===================================================================== *)

Module Log2JsonProperties.
Import Log2Json Log2JsonSpec Log2JsonFacts.

(** *** The command line *)

Lemma parse_options_step (a v : str) (r : list str) (acc : arguments) :
  parse_options (a :: v :: r) acc =
  if bool_decide (a = lit "-o") then
    parse_options r {| arg_log_file := arg_log_file acc;
                       arg_config_files := arg_config_files acc;
                       arg_output_file := Some v;
                       arg_name := arg_name acc |}
  else if bool_decide (a = lit "-n") then
    parse_options r {| arg_log_file := arg_log_file acc;
                       arg_config_files := arg_config_files acc;
                       arg_output_file := arg_output_file acc;
                       arg_name := Some v |}
  else
    parse_options (v :: r) {| arg_log_file := arg_log_file acc;
                              arg_config_files := arg_config_files acc ++ [a];
                              arg_output_file := arg_output_file acc;
                              arg_name := arg_name acc |}.
Proof. reflexivity. Qed.

Lemma parse_options_spec (n : nat) : forall rest acc,
  (length rest <= n)%nat ->
  let a := parse_options rest acc in
  arg_log_file a = arg_log_file acc /\
  (exists cs, arg_config_files a = arg_config_files acc ++ cs /\ sublist cs rest) /\
  (arg_output_file a = arg_output_file acc \/
   exists v pre post, arg_output_file a = Some v /\
                      rest = pre ++ lit "-o" :: v :: post) /\
  (arg_name a = arg_name acc \/
   exists v pre post, arg_name a = Some v /\
                      rest = pre ++ lit "-n" :: v :: post).
Proof.
  induction n as [|n IH]; intros rest acc Hlen.
  - destruct rest; [|simpl in Hlen; lia]. simpl.
    split; [reflexivity|]. split; [|auto].
    exists []. rewrite app_nil_r. split; [reflexivity | constructor].
  - destruct rest as [|arg r].
    { simpl. split; [reflexivity|]. split; [|auto].
      exists []. rewrite app_nil_r. split; [reflexivity | constructor]. }
    destruct r as [|v r'].
    { simpl. split; [reflexivity|]. split; [|auto].
      exists [arg]. split; [reflexivity | reflexivity]. }
    simpl in Hlen.
    rewrite parse_options_step.
    destruct (bool_decide (arg = lit "-o")) eqn:Eo.
    { apply bool_decide_eq_true in Eo. subst arg.
      specialize (IH r' {| arg_log_file := arg_log_file acc;
                 arg_config_files := arg_config_files acc;
                 arg_output_file := Some v;
                 arg_name := arg_name acc |} ltac:(lia)).
      cbv zeta in IH. destruct IH as (H1 & (cs & H2 & H3) & H4 & H5).
      cbv zeta. split; [exact H1|]. split; [|split].
      - exists cs. split; [exact H2|]. now do 2 apply sublist_cons.
      - right. destruct H4 as [H4|(v' & pre & post & H4 & ->)].
        + exists v, [], r'. split; [exact H4 | reflexivity].
        + exists v', (lit "-o" :: v :: pre), post. split; [exact H4 | reflexivity].
      - destruct H5 as [H5|(v' & pre & post & H5 & ->)]; [left; exact H5|].
        right. exists v', (lit "-o" :: v :: pre), post. split; [exact H5 | reflexivity]. }
    destruct (bool_decide (arg = lit "-n")) eqn:En.
    { apply bool_decide_eq_true in En. subst arg.
      specialize (IH r' {| arg_log_file := arg_log_file acc;
                 arg_config_files := arg_config_files acc;
                 arg_output_file := arg_output_file acc;
                 arg_name := Some v |} ltac:(lia)).
      cbv zeta in IH. destruct IH as (H1 & (cs & H2 & H3) & H4 & H5).
      cbv zeta. split; [exact H1|]. split; [|split].
      - exists cs. split; [exact H2|]. now do 2 apply sublist_cons.
      - destruct H4 as [H4|(v' & pre & post & H4 & ->)]; [left; exact H4|].
        right. exists v', (lit "-n" :: v :: pre), post. split; [exact H4 | reflexivity].
      - right. destruct H5 as [H5|(v' & pre & post & H5 & ->)].
        + exists v, [], r'. split; [exact H5 | reflexivity].
        + exists v', (lit "-n" :: v :: pre), post. split; [exact H5 | reflexivity]. }
    specialize (IH (v :: r') {| arg_log_file := arg_log_file acc;
                 arg_config_files := arg_config_files acc ++ [arg];
                 arg_output_file := arg_output_file acc;
                 arg_name := arg_name acc |} ltac:(simpl; lia)).
    cbv zeta in IH. destruct IH as (H1 & (cs & H2 & H3) & H4 & H5).
    cbv zeta. split; [exact H1|]. split; [|split].
    + exists (arg :: cs). split.
      * etransitivity; [exact H2|]. cbn [arg_config_files]. now rewrite <- app_assoc.
      * now apply sublist_skip.
    + destruct H4 as [H4|(v' & pre & post & H4 & E)]; [left; exact H4|].
      right. exists v', (arg :: pre), post. split; [exact H4|].
      rewrite E. reflexivity.
    + destruct H5 as [H5|(v' & pre & post & H5 & E)]; [left; exact H5|].
      right. exists v', (arg :: pre), post. split; [exact H5|].
      rewrite E. reflexivity.
Qed.

(** Without [-o] and [-n] before the last word, every word is a
    configuration file. *)
Lemma parse_options_plain (ws : list str) : forall (last : list str) acc,
  Forall (fun a => is_option a = false) ws ->
  (length last <= 1)%nat ->
  parse_options (ws ++ last) acc =
  {| arg_log_file := arg_log_file acc;
     arg_config_files := arg_config_files acc ++ ws ++ last;
     arg_output_file := arg_output_file acc;
     arg_name := arg_name acc |}.
Proof.
  induction ws as [|a ws IH]; intros last acc Hall Hlen.
  - destruct last as [|l [|l' r]]; simpl in *; try lia.
    + rewrite app_nil_r. now destruct acc.
    + reflexivity.
  - inversion Hall as [|? ? Ha Hws]; subst.
    unfold is_option in Ha. apply orb_false_iff in Ha as [Ho Hn].
    change ((a :: ws) ++ last) with (a :: (ws ++ last)).
    destruct (ws ++ last) as [|v r'] eqn:E.
    + apply app_eq_nil in E as [-> ->]. reflexivity.
    + rewrite parse_options_step, Ho, Hn, <- E, IH by assumption.
      cbn. now rewrite <- app_assoc.
Qed.


(** X1. [parse_args] stops with status 1 when fewer than three words are
    given and never raises; otherwise it returns, the log file is the second
    word, the configuration files are a subsequence of the words after it,
    and a reported output file or name is the word that directly follows an
    [-o] or [-n] among them. *)
Theorem parse_args_reads_options (argv : list str) :
  match parse_args argv with
  | Ok a =>
      (3 <= length argv)%nat /\
      argv !! 1%nat = Some (arg_log_file a) /\
      sublist (arg_config_files a) (drop 2 argv) /\
      (forall v, arg_output_file a = Some v ->
         exists pre post, drop 2 argv = pre ++ lit "-o" :: v :: post) /\
      (forall v, arg_name a = Some v ->
         exists pre post, drop 2 argv = pre ++ lit "-n" :: v :: post)
  | Exit code => code = 1 /\ (length argv < 3)%nat
  | Raise _ => False
  end.
Proof.
  destruct argv as [|prog [|log [|c rest]]];
    try (simpl; split; [reflexivity | lia]).
  destruct (parse_options_spec (length (c :: rest)) (c :: rest)
              {| arg_log_file := log; arg_config_files := [];
                 arg_output_file := None; arg_name := None |} (le_n _))
    as (H1 & (cs & H2 & H3) & H4 & H5).
  unfold parse_args.
  change (drop 2 (prog :: log :: c :: rest)) with (c :: rest).
  set (a := parse_options (c :: rest) _) in *.
  cbn [arg_log_file arg_config_files arg_output_file arg_name] in *.
  split; [simpl; lia|]. split; [now rewrite H1|]. split; [now rewrite H2|].
  split.
  - intros v Hv. destruct H4 as [H4|(v' & pre & post & H4 & E)].
    + rewrite H4 in Hv. discriminate.
    + rewrite H4 in Hv. inversion Hv; subst v'. exists pre, post. exact E.
  - intros v Hv. destruct H5 as [H5|(v' & pre & post & H5 & E)].
    + rewrite H5 in Hv. discriminate.
    + rewrite H5 in Hv. inversion Hv; subst v'. exists pre, post. exact E.
Qed.

(** X2. When none of the words after the log file, the last one apart, is
    [-o] or [-n], all of them are configuration files and no output file or
    name is set: an [-o] or [-n] in last place has no value to take and is
    read as a configuration file. *)
Theorem parse_args_without_option_values (prog log : str) (ws last : list str) :
  Forall (fun a => is_option a = false) ws ->
  (length last <= 1)%nat ->
  ws ++ last <> [] ->
  parse_args (prog :: log :: ws ++ last) =
  Ok {| arg_log_file := log; arg_config_files := ws ++ last;
        arg_output_file := None; arg_name := None |}.
Proof.
  intros Hall Hlen Hne. unfold parse_args.
  destruct (ws ++ last) as [|c rest] eqn:E; [congruence|].
  rewrite <- E, parse_options_plain by assumption. reflexivity.
Qed.

Lemma parse_args_without_option_values_witness :
  parse_args [lit "log2json.py"; lit "app.log"; lit "a.py"; lit "-o"] =
  Ok {| arg_log_file := lit "app.log";
        arg_config_files := [lit "a.py"; lit "-o"];
        arg_output_file := None; arg_name := None |}.
Proof.
  apply (parse_args_without_option_values (lit "log2json.py") (lit "app.log")
           [lit "a.py"] [lit "-o"]).
  - repeat constructor.
  - simpl. lia.
  - discriminate.
Defined.

Section Script.
Context {W : World}.

(** *** Configuration files *)

(** X3. [expand_config_patterns] keeps the names without [*] and [?] as
    they are and in their order, whether such a file exists or not; any
    other entry of its result was found by [glob] for a pattern of the
    list. *)
Theorem expand_config_patterns_members (patterns : list str) :
  sublist (List.filter (fun p => negb (has_wildcard p)) patterns)
          (expand_config_patterns patterns) /\
  (forall f, In f (expand_config_patterns patterns) <->
     (In f patterns /\ has_wildcard f = false) \/
     (exists p, In p patterns /\ has_wildcard p = true /\ In f (glob_sorted p))).
Proof.
  unfold expand_config_patterns. split.
  - induction patterns as [|p ps IH]; simpl; [constructor|].
    fold (has_wildcard p). destruct (has_wildcard p); simpl.
    + now apply sublist_inserts_l.
    + now apply sublist_skip.
  - intros f. rewrite in_flat_map. split.
    + intros (p & Hp & Hf). fold (has_wildcard p) in Hf.
      destruct (has_wildcard p) eqn:E.
      * right. eauto.
      * destruct Hf as [<-|[]]. left. auto.
    + intros [[Hf E]|(p & Hp & E & Hf)].
      * exists f. split; [exact Hf|]. fold (has_wildcard f). rewrite E. now left.
      * exists p. split; [exact Hp|]. fold (has_wildcard p). now rewrite E.
Qed.

Lemma expand_nothing (patterns : list str) :
  (forall p, In p patterns -> has_wildcard p = true /\ glob_sorted p = []) ->
  expand_config_patterns patterns = [].
Proof.
  unfold expand_config_patterns.
  induction patterns as [|p ps IH]; intros H; simpl; [reflexivity|].
  destruct (H p (or_introl eq_refl)) as [E1 E2].
  fold (has_wildcard p). rewrite E1, E2. simpl. apply IH.
  intros q Hq. apply H. now right.
Qed.

(** X4. When every command-line entry is a pattern with a wild card that
    matches no file (the empty list included), [main] stops with exit
    status 1 and evaluates nothing. *)
Theorem main_needs_a_configuration_file (patterns : list str) (name : str) :
  (forall p, In p patterns -> has_wildcard p = true /\ glob_sorted p = []) ->
  main patterns name = Exit 1.
Proof.
  intros H. unfold main.
  destruct (negb log_file_exists); [reflexivity|].
  destruct patterns as [|p ps]; [reflexivity|].
  now rewrite (expand_nothing _ H).
Qed.

Lemma run_configs_collect (files : list str) : forall acc acc',
  foldM run_config acc files = Ok acc' ->
  all_data acc' = all_data acc ++ flat_map class_from files /\
  process_json_callbacks acc' =
    process_json_callbacks acc ++ flat_map hook_from files.
Proof.
  induction files as [|f fs IH]; intros acc acc'; simpl.
  - intros E; inversion E; subst. now rewrite !app_nil_r.
  - intros E. apply bind_Ok_inv in E as (acc1 & E1 & E2).
    apply IH in E2 as [H1 H2]. rewrite H1, H2.
    unfold run_config, load_config in E1.
    unfold class_from, hook_from, evaluated.
    destruct (config_at f) as [| | |cfg]; simpl in E1; try discriminate.
    destruct (process_config cfg) as [cd| |]; simpl in E1; try discriminate.
    inversion E1; subst acc1; clear E1. cbn [all_data process_json_callbacks].
    split.
    + destruct (cd_subclasses cd); [now rewrite app_nil_l | now rewrite <- app_assoc].
    + destruct (process_json cfg); [now rewrite <- app_assoc | reflexivity].
Qed.

(** X5. When [main] completes, every expanded configuration file was loaded
    and evaluated; the document handed to the hooks holds the classes in the
    order of the files, without those that have no subclass; the hooks of all
    files run in that order, those of files that produced no point included;
    and the written document is what [result] refers to after them. *)
Theorem main_merges_in_file_order (patterns : list str) (name : str)
    (out : output) :
  main patterns name = Ok out ->
  let files := expand_config_patterns patterns in
  let st := run_hooks (flat_map hook_from files)
              {| rs_heap := {[ 0%nat := merge_results (flat_map class_from files) name ]};
                 rs_result := 0%nat; rs_log := [] |} in
  Forall (fun f => is_Some (evaluated f)) files /\
  out = {| written := rs_heap st !! rs_result st; messages := rs_log st |}.
Proof.
  unfold main. destruct (negb log_file_exists); [discriminate|].
  destruct patterns as [|p ps]; [discriminate|].
  destruct (expand_config_patterns (p :: ps)) as [|f fs] eqn:Ex; [discriminate|].
  intros E. apply bind_Ok_inv in E as (acc & E1 & E2).
  cbv zeta. split.
  - clear E2. revert E1. generalize (f :: fs) as files.
    generalize ({| all_data := []; process_json_callbacks := [] |}) as acc0.
    intros acc0 files; revert acc0.
    induction files as [|g gs IH]; intros acc0; simpl; [constructor|].
    intros E. apply bind_Ok_inv in E as (acc1 & E1 & E2).
    constructor; [|eapply IH; exact E2].
    unfold run_config, load_config in E1. unfold evaluated.
    destruct (config_at g) as [| | |cfg]; simpl in E1; try discriminate.
    destruct (process_config cfg) as [cd| |]; simpl in E1; try discriminate.
    eauto.
  - apply run_configs_collect in E1 as [H1 H2]. simpl in H1, H2.
    rewrite H1, H2 in E2. inversion E2. reflexivity.
Qed.

(** *** Hooks *)

Lemma run_hook_messages (st : run_state) (cb : str * hook) :
  omap started (rs_log (run_hook st cb)) = omap started (rs_log st) ++ [cb.1] /\
  exists fs, omap failed (rs_log (run_hook st cb)) = omap failed (rs_log st) ++ fs /\
             sublist fs [cb.1].
Proof.
  unfold run_hook. destruct (cb.2 (rs_heap st) (rs_result st)) as [h' [l|]]; simpl.
  - rewrite !omap_app. simpl. split; [reflexivity|].
    exists []. rewrite app_nil_r. split; [reflexivity | apply sublist_nil_l].
  - rewrite !omap_app. simpl. split; [reflexivity|].
    exists [cb.1]. split; reflexivity.
Qed.

(** X6. The loop over [process_json_callbacks] starts every hook exactly
    once, in the order of the list, whatever the hooks do; the failures
    reported are a subsequence of the hooks' files. *)
Theorem hooks_run_once_in_order (cbs : list (str * hook)) (st : run_state) :
  omap started (rs_log (run_hooks cbs st)) =
    omap started (rs_log st) ++ map fst cbs /\
  exists fs, omap failed (rs_log (run_hooks cbs st)) =
               omap failed (rs_log st) ++ fs /\
             sublist fs (map fst cbs).
Proof.
  unfold run_hooks. revert st.
  induction cbs as [|cb cbs IH]; intros st; simpl.
  - rewrite app_nil_r. split; [reflexivity|].
    exists []. rewrite app_nil_r. split; [reflexivity | constructor].
  - destruct (IH (run_hook st cb)) as (H1 & fs & H2 & H3).
    destruct (run_hook_messages st cb) as (G1 & gs & G2 & G3).
    rewrite H1, H2, G1, G2, <- !app_assoc. split; [reflexivity|].
    exists (gs ++ fs). split; [reflexivity|].
    change (cb.1 :: map fst cbs) with ([cb.1] ++ map fst cbs).
    now apply sublist_app.
Qed.

(** *** ripgrep's output *)

Lemma collect_matches_malformed (lines : list out_line) : forall acc,
  In (LineJson EvMalformed) lines -> collect_matches lines acc = None.
Proof.
  induction lines as [|l ls IH]; intros acc; [intros []|].
  intros [->|Hin]; [reflexivity|].
  destruct l as [| |[|n t subs|]]; cbn [collect_matches]; auto.
Qed.

Lemma collect_matches_wellformed (lines : list out_line) : forall acc,
  ~ In (LineJson EvMalformed) lines ->
  collect_matches lines acc = Some (acc ++ omap match_of lines).
Proof.
  induction lines as [|l ls IH]; intros acc Hn.
  - simpl. now rewrite app_nil_r.
  - assert (Hn' : ~ In (LineJson EvMalformed) ls) by (intros H; apply Hn; now right).
    destruct l as [| |[|n t subs|]]; cbn [collect_matches]; simpl omap.
    + now apply IH.
    + now apply IH.
    + now apply IH.
    + rewrite IH by assumption. now rewrite <- app_assoc.
    + exfalso. apply Hn. now left.
Qed.

(** X7. When the ripgrep process completes, whatever its exit status,
    [run_rg_json] returns the match events of the output in their order,
    each with its text stripped; but a single event on which the loop body
    raises makes it return no match at all, those before it included. *)
Theorem run_rg_json_keeps_matches_in_order (pat : str) (code : Z)
    (lines : list out_line) :
  rg_run pat = Completed code lines ->
  (In (LineJson EvMalformed) lines -> run_rg_json pat = Ok []) /\
  (~ In (LineJson EvMalformed) lines ->
   run_rg_json pat = Ok (omap match_of lines)).
Proof.
  intros E. unfold run_rg_json. rewrite E. split; intros H.
  - now rewrite collect_matches_malformed.
  - now rewrite collect_matches_wellformed.
Qed.

Lemma run_rg_json_stripped (pat : str) (ms : list rgmatch) (m : rgmatch) :
  run_rg_json pat = Ok ms -> In m ms -> strip (line_text m) = line_text m.
Proof.
  unfold run_rg_json.
  destruct (rg_run pat) as [| |code lines]; try discriminate.
  - intros E; inversion E; subst. intros [].
  - destruct (collect_matches lines []) as [ms'|] eqn:Ec.
    + intros E; inversion E; subst ms'; clear E. revert Ec.
      assert (G : forall acc,
                 Forall (fun m => strip (line_text m) = line_text m) acc ->
                 collect_matches lines acc = Some ms ->
                 Forall (fun m => strip (line_text m) = line_text m) ms).
      { clear. induction lines as [|l ls IH]; intros acc Hacc; simpl.
        - intros E; inversion E; subst; exact Hacc.
        - destruct l as [| |[|n t subs|]]; try (now apply IH); [|discriminate].
          apply IH. apply Forall_app. split; [exact Hacc|].
          constructor; [|constructor]. simpl. apply strip_idempotent. }
      intros Ec Hm. specialize (G [] ltac:(constructor) Ec).
      rewrite Forall_forall in G. apply G. now apply list_elem_of_In.
    + intros E; inversion E; subst. intros [].
Qed.

Lemma work_stripped (cfg : config) (w : work_item) :
  In w (work cfg) -> strip (line_text w.2) = line_text w.2.
Proof.
  unfold work. rewrite in_flat_map. intros (sc & _ & Hw).
  unfold work_of_sub in Hw. rewrite in_flat_map in Hw. destruct Hw as (r & _ & Hw).
  unfold work_of_rule in Hw. destruct (pattern r) as [|c pat]; [destruct Hw|].
  destruct (run_rg_json (c :: pat)) as [ms| |] eqn:E; try destruct Hw.
  rewrite in_map_iff in Hw. destruct Hw as (m & <- & Hm). simpl.
  eapply run_rg_json_stripped; eauto.
Qed.

(** *** What [process_config] emits *)

Lemma run_provenance (ws : list work_item) : forall st st',
  foldM step_item st ws = Ok st' ->
  forall q, In q (points_of (subclass_points_map st')) ->
    In q (points_of (subclass_points_map st)) \/
    exists w n, In w ws /\ build_point w.1.1 w.1.2 w.2 = Ok (n, q).
Proof.
  induction ws as [|w ws IH]; intros st st'; simpl.
  - intros E; inversion E; subst; auto.
  - intros E q Hq. apply bind_Ok_inv in E as (st1 & E1 & E2).
    destruct (IH _ _ E2 q Hq) as [H|(w' & n & Hw' & Hb)]; [|right; eauto].
    apply step_item_cases in E1 as [[_ ->]|(_ & n & p & Hb & ->)]; [auto|].
    simpl in H. apply (Permutation_in _ (add_point_perm n p _)) in H.
    destruct H as [<-|H]; [|auto]. right. exists w, n. auto.
Qed.

Lemma run_seen_all (ws : list work_item) : forall st st',
  foldM step_item st ws = Ok st' ->
  seen_lines st ⊆ seen_lines st' /\
  forall w, In w ws -> line_number w.2 ∈ seen_lines st'.
Proof.
  induction ws as [|w ws IH]; intros st st'; simpl.
  - intros E; inversion E; subst. split; [reflexivity | intros ? []].
  - intros E. apply bind_Ok_inv in E as (st1 & E1 & E2).
    destruct (IH _ _ E2) as [Hs Hw].
    apply step_item_cases in E1 as [[Hin ->]|(_ & n & p & _ & ->)].
    + split; [exact Hs|]. intros w' [<-|Hw']; [apply Hs, Hin | auto].
    + simpl in Hs. split.
      * intros z Hz. apply Hs, elem_of_union. now right.
      * intros w' [<-|Hw']; [|auto].
        apply Hs, elem_of_union. left. now apply elem_of_singleton.
Qed.

Lemma run_seen_points (ws : list work_item) : forall st st',
  (forall z, z ∈ seen_lines st ->
     exists p, In p (points_of (subclass_points_map st)) /\ p_line p = z) ->
  foldM step_item st ws = Ok st' ->
  forall z, z ∈ seen_lines st' ->
    exists p, In p (points_of (subclass_points_map st')) /\ p_line p = z.
Proof.
  induction ws as [|w ws IH]; intros st st' Hst; simpl.
  - intros E; inversion E; subst; auto.
  - intros E. apply bind_Ok_inv in E as (st1 & E1 & E2).
    eapply IH; [|exact E2].
    apply step_item_cases in E1 as [[_ ->]|(_ & n & p & Hb & ->)]; [exact Hst|].
    simpl. intros z Hz.
    apply elem_of_union in Hz as [Hz|Hz].
    + apply elem_of_singleton in Hz. subst z. exists p. split.
      * eapply Permutation_in; [symmetry; apply add_point_perm | now left].
      * eapply build_point_line; eauto.
    + destruct (Hst z Hz) as (q & Hq & Hl). exists q. split; [|exact Hl].
      eapply Permutation_in; [symmetry; apply add_point_perm | now right].
Qed.

Lemma build_point_fields sc r m n p :
  build_point sc r m = Ok (n, p) ->
  p_line p = line_number m /\ p_msg p = line_text m /\
  p_timestamp p = parse_logcat_timestamp (line_text m) /\
  resolve_layer r m = Ok (p_layer p) /\
  (exists c, resolve_cursor r m = Ok c /\ p_cursor p = py_str c).
Proof.
  unfold build_point. intros E.
  apply bind_Ok_inv in E as (c & Hc & E).
  apply bind_Ok_inv in E as (l & Hl & E).
  inversion E; subst; simpl. repeat split; eauto.
Qed.

Lemma class_points_from_work (cfg : config) (cd : class_data) (q : point) :
  process_config cfg = Ok cd ->
  In q (class_points cd) ->
  exists sc r m, In (sc, r, m) (work cfg) /\
    p_line q = line_number m /\ p_msg q = line_text m /\
    p_timestamp q = parse_logcat_timestamp (line_text m) /\
    resolve_layer r m = Ok (p_layer q) /\
    exists c, resolve_cursor r m = Ok c /\ p_cursor q = py_str c.
Proof.
  intros E. apply process_config_inv in E as (st & Hrun & _ & Hcd).
  unfold class_points. rewrite Hcd.
  intros Hq. apply (Permutation_in _ (emit_perm _)) in Hq.
  destruct (run_provenance _ _ _ Hrun q Hq) as [[]|([[sc r] m] & n & Hw & Hb)].
  exists sc, r, m. split; [exact Hw|]. eapply build_point_fields; exact Hb.
Qed.

(** X8. Every point that [process_config] emits comes from a match of a rule
    with a pattern: its line number and message are those of the match, its
    time stamp is [parse_logcat_timestamp] of the message (0 when that does
    not parse), its layer and cursor are the resolved ones. Conversely every
    line matched by some rule has a point. *)
Theorem points_are_the_matched_lines (cfg : config) (cd : class_data) :
  process_config cfg = Ok cd ->
  (forall q, In q (class_points cd) ->
     exists sc r m, In (sc, r, m) (work cfg) /\
       p_line q = line_number m /\ p_msg q = line_text m /\
       p_timestamp q = parse_logcat_timestamp (line_text m) /\
       resolve_layer r m = Ok (p_layer q) /\
       exists c, resolve_cursor r m = Ok c /\ p_cursor q = py_str c) /\
  (forall w, In w (work cfg) ->
     exists q, In q (class_points cd) /\ p_line q = line_number w.2).
Proof.
  intros E. split; [intros q; now apply class_points_from_work|].
  apply process_config_inv in E as (st & Hrun & _ & Hcd).
  unfold class_points. rewrite Hcd.
  - intros w Hw.
    destruct (run_seen_all _ _ _ Hrun) as [_ Hall].
    assert (H0 : forall z, z ∈ seen_lines
                  {| subclass_points_map := []; seen_lines := ∅ |} ->
               exists p, In p (points_of (subclass_points_map
                  {| subclass_points_map := []; seen_lines := ∅ |})) /\ p_line p = z).
    { simpl. intros z Hz. now apply elem_of_empty in Hz. }
    destruct (run_seen_points _ _ _ H0 Hrun _ (Hall w Hw)) as (q & Hq & Hl).
    exists q. split; [|exact Hl].
    eapply Permutation_in; [symmetry; apply emit_perm | exact Hq].
Qed.

(** X9. The message of every emitted point is stripped: it neither begins
    nor ends with white space, and stripping it again changes nothing. *)
Theorem messages_are_stripped (cfg : config) (cd : class_data) :
  process_config cfg = Ok cd ->
  Forall (fun q =>
            strip (p_msg q) = p_msg q /\
            (forall c r, p_msg q = c :: r -> is_space c = false) /\
            (forall c r, p_msg q = r ++ [c] -> is_space c = false))
         (class_points cd).
Proof.
  intros E. rewrite Forall_forall. intros q Hq. apply list_elem_of_In in Hq.
  destruct (class_points_from_work cfg cd q E Hq) as (sc & r & m & Hw & _ & Hm & _).
  pose proof (work_stripped cfg _ Hw) as Hs. simpl in Hs.
  rewrite Hm. split; [exact Hs|]. rewrite <- Hs. split; intros c s.
  - apply strip_no_leading_space.
  - apply strip_no_trailing_space.
Qed.

Lemma run_buckets (ws : list work_item) : forall st st',
  ForallOrdPairs (fun a b => key_eqb a b = false)
    (map fst (subclass_points_map st)) ->
  Forall (fun kp => kp.2 <> []) (subclass_points_map st) ->
  foldM step_item st ws = Ok st' ->
  ForallOrdPairs (fun a b => key_eqb a b = false)
    (map fst (subclass_points_map st')) /\
  Forall (fun kp => kp.2 <> []) (subclass_points_map st').
Proof.
  induction ws as [|w ws IH]; intros st st' H1 H2; simpl.
  - intros E; inversion E; subst; auto.
  - intros E. apply bind_Ok_inv in E as (st1 & E1 & E2).
    apply step_item_cases in E1 as [[_ ->]|(_ & n & p & _ & ->)];
      [eapply IH; eauto|].
    eapply IH; [| |exact E2]; simpl; unfold add_point.
    + now apply dd_append_distinct.
    + now apply dd_append_nonempty.
Qed.

Lemma emit_nonempty (bs : buckets) :
  Forall (fun kp => kp.2 <> []) bs ->
  map sd_subclassname (emit_subclasses bs) = map fst bs /\
  Forall (fun sd => sd_points sd <> []) (emit_subclasses bs).
Proof.
  unfold emit_subclasses.
  induction bs as [|[k ps] r IH]; simpl; intros H; [split; constructor|].
  inversion H as [|? ? Hne Hr]; subst. simpl in Hne.
  destruct (IH Hr) as [IH1 IH2].
  pose proof (sort_by_perm line_le ps) as Hp.
  destruct (sort_by line_le ps) as [|q qs] eqn:E.
  - apply Permutation_nil in Hp. contradiction.
  - simpl. rewrite IH1. split; [reflexivity|].
    constructor; [simpl; discriminate | exact IH2].
Qed.

(** X10. No emitted subclass is empty, and no two emitted subclasses have
    names that are equal as dictionary keys: groups whose names resolve to
    the same key are merged into one subclass. *)
Theorem subclasses_nonempty_with_distinct_names (cfg : config) (cd : class_data) :
  process_config cfg = Ok cd ->
  (forall sd, In sd (cd_subclasses cd) -> sd_points sd <> []) /\
  (forall (i j : nat) sd1 sd2, i <> j ->
     cd_subclasses cd !! i = Some sd1 -> cd_subclasses cd !! j = Some sd2 ->
     key_eqb (sd_subclassname sd1) (sd_subclassname sd2) = false).
Proof.
  intros E. apply process_config_inv in E as (st & Hrun & _ & Hcd).
  destruct (run_buckets (work cfg)
              {| subclass_points_map := []; seen_lines := ∅ |} st
              (FOP_nil _) (List.Forall_nil _) Hrun) as [H1 H2].
  destruct (emit_nonempty _ H2) as [G1 G2]. rewrite <- G1, <- Hcd in H1.
  rewrite <- Hcd in G2. split.
  - intros sd Hsd. rewrite Forall_forall in G2. apply G2. now apply list_elem_of_In.
  - assert (G : forall (i j : nat) sd1 sd2, (i < j)%nat ->
       cd_subclasses cd !! i = Some sd1 -> cd_subclasses cd !! j = Some sd2 ->
       key_eqb (sd_subclassname sd1) (sd_subclassname sd2) = false).
    { intros i j sd1 sd2 Hij Hi Hj.
      apply (ForallOrdPairs_lookup _ _ H1 i j); [exact Hij| |];
        rewrite list_lookup_fmap; [now rewrite Hi | now rewrite Hj]. }
    intros i j sd1 sd2 Hij Hi Hj.
    destruct (Nat.lt_total i j) as [Hlt|[Heq|Hgt]]; [eauto | contradiction|].
    rewrite key_eqb_sym. eauto.
Qed.

(** X11. Rules without a pattern do nothing: removing them from the
    configuration leaves the outcome of [process_config] unchanged, errors
    included. *)
Theorem rules_without_pattern_do_nothing (cfg : config) :
  process_config (prune_rules cfg) = process_config cfg.
Proof.
  unfold process_config, prune_rules. cbn [subclasses classname].
  rewrite (foldM_map_ext process_sub process_sub); [reflexivity|].
  intros st sc. unfold process_sub. cbn [rules].
  transitivity (foldM (process_rule sc) st (List.filter has_pattern (rules sc))).
  - reflexivity.
  - apply foldM_filter. intros s0 r Hr. unfold process_rule.
    unfold has_pattern in Hr. destruct (pattern r); [reflexivity | discriminate].
Qed.

End Script.

Import Demo.

Lemma main_needs_a_configuration_file_witness :
  main [lit "configs/*.py"] (lit "run") = Exit 1.
Proof.
  apply (main_needs_a_configuration_file [lit "configs/*.py"] (lit "run")).
  intros p [<-|[]]. split; reflexivity.
Defined.

Lemma main_merges_in_file_order_witness :
  main [lit "errors.py"; lit "ab.py"] (lit "run")
  = Ok {| written := Some (merge_results [errors_class; ab_class] (lit "run"));
          messages := [] |} /\
  let files := expand_config_patterns [lit "errors.py"; lit "ab.py"] in
  let st := run_hooks (flat_map hook_from files)
              {| rs_heap := {[ 0%nat := merge_results (flat_map class_from files)
                                          (lit "run") ]};
                 rs_result := 0%nat; rs_log := [] |} in
  Forall (fun f => is_Some (evaluated f)) files /\
  {| written := Some (merge_results [errors_class; ab_class] (lit "run"));
     messages := [] |}
  = {| written := rs_heap st !! rs_result st; messages := rs_log st |}.
Proof.
  assert (H : main [lit "errors.py"; lit "ab.py"] (lit "run")
              = Ok {| written := Some (merge_results [errors_class; ab_class]
                                         (lit "run"));
                      messages := [] |})
    by (vm_compute; reflexivity).
  split; [exact H|].
  exact (main_merges_in_file_order _ _ _ H).
Defined.

Lemma run_rg_json_keeps_matches_in_order_witness :
  rg_run (lit "boot")
  = Completed 0 [LineJson EvOther; match_at 7; LineJson EvOther] /\
  run_rg_json (lit "boot") = Ok [boot_match].
Proof.
  assert (H : rg_run (lit "boot")
              = Completed 0 [LineJson EvOther; match_at 7; LineJson EvOther])
    by reflexivity.
  split; [exact H|].
  apply (run_rg_json_keeps_matches_in_order (lit "boot") 0 _ H).
  intros [E|[E|[E|[]]]]; discriminate.
Defined.

Lemma points_are_the_matched_lines_witness :
  process_config ab_config = Ok ab_class /\
  (forall q, In q (class_points ab_class) ->
     exists sc r m, In (sc, r, m) (work ab_config) /\
       p_line q = line_number m /\ p_msg q = line_text m /\
       p_timestamp q = parse_logcat_timestamp (line_text m) /\
       resolve_layer r m = Ok (p_layer q) /\
       exists c, resolve_cursor r m = Ok c /\ p_cursor q = py_str c) /\
  (forall w, In w (work ab_config) ->
     exists q, In q (class_points ab_class) /\ p_line q = line_number w.2).
Proof.
  assert (H : process_config ab_config = Ok ab_class)
    by (vm_compute; reflexivity).
  split; [exact H|].
  exact (points_are_the_matched_lines ab_config ab_class H).
Defined.

Lemma messages_are_stripped_witness :
  process_config (hooked_config emptying) = Ok errors_class /\
  Forall (fun q =>
            strip (p_msg q) = p_msg q /\
            (forall c r, p_msg q = c :: r -> is_space c = false) /\
            (forall c r, p_msg q = r ++ [c] -> is_space c = false))
         (class_points errors_class).
Proof.
  assert (H : process_config (hooked_config emptying) = Ok errors_class)
    by (vm_compute; reflexivity).
  split; [exact H|].
  exact (messages_are_stripped (hooked_config emptying) errors_class H).
Defined.

Lemma subclasses_nonempty_with_distinct_names_witness :
  process_config errors_config = Ok errors_class /\
  (forall sd, In sd (cd_subclasses errors_class) -> sd_points sd <> []) /\
  (forall (i j : nat) sd1 sd2, i <> j ->
     cd_subclasses errors_class !! i = Some sd1 ->
     cd_subclasses errors_class !! j = Some sd2 ->
     key_eqb (sd_subclassname sd1) (sd_subclassname sd2) = false).
Proof.
  assert (H : process_config errors_config = Ok errors_class)
    by (vm_compute; reflexivity).
  split; [exact H|].
  exact (subclasses_nonempty_with_distinct_names errors_config errors_class H).
Defined.

End Log2JsonProperties.

(* ===================================================================== *)
(** ** json2html.py: the traversal, the placed points and the series *)
(* ===================================================================== *)

Module Json2HtmlProperties.
Import Json2Html Json2HtmlSpec Json2HtmlFacts Json2HtmlSpread.

Section Layout.
Context {A : Arith}.

(** *** The traversal *)








(** *** The sort and the spreading *)



Lemma point_le_clear (a b : lpoint) :
  point_le (clear_display a) (clear_display b) = point_le a b.
Proof. reflexivity. Qed.




(** *** The series *)


End Layout.

End Json2HtmlProperties.

(* ===================================================================== *)
(** ** The sample configurations: the example hook and the level helper *)
(* ===================================================================== *)

Module ConfigsProperties.
Import Log2Json Log2JsonSpec Configs.

(** *** configs/example_process_json.py *)

Lemma layered_lookup (n : nat) (l : list point) (i : nat) :
  map (fun ip : nat * point => with_layer (third_layer n ip.1) ip.2) (enumerate l) !! i
  = with_layer (third_layer n i) <$> l !! i.
Proof.
  change (map ?f ?x) with (f <$> x). rewrite list_lookup_fmap.
  destruct (l !! i) as [p|] eqn:E.
  - assert (H : enumerate l !! i = Some (i, p)) by (now apply enumerate_lookup).
    now rewrite H.
  - destruct (enumerate l !! i) as [[j p]|] eqn:E'; [|reflexivity].
    apply enumerate_lookup in E' as [_ E']. congruence.
Qed.

Lemma relayer_lookup (ps : list point) (i : nat) :
  relayer ps !! i
  = with_layer (third_layer (length ps) i) <$> sort_by timestamp_le ps !! i.
Proof.
  unfold relayer. cbv zeta. rewrite layered_lookup.
  now rewrite (Permutation_length (sort_by_perm timestamp_le ps)).
Qed.

Lemma relayer_length (ps : list point) : length (relayer ps) = length ps.
Proof.
  unfold relayer. cbv zeta. unfold enumerate.
  rewrite length_map, length_zip, length_seq, Nat.min_id.
  apply Permutation_length, sort_by_perm.
Qed.

Lemma third_layer_mono (n i j : nat) :
  (i <= j)%nat -> third_layer n i <= third_layer n j.
Proof.
  intros Hij. unfold third_layer.
  destruct (i <? n / 3)%nat eqn:E1, (j <? n / 3)%nat eqn:E1';
  destruct (i <? 2 * n / 3)%nat eqn:E2, (j <? 2 * n / 3)%nat eqn:E2';
    try lia;
    rewrite ?Nat.ltb_lt, ?Nat.ltb_ge in *; lia.
Qed.

Lemma third_layer_range (n i : nat) : 1 <= third_layer n i <= 3.
Proof.
  unfold third_layer.
  destruct (i <? n / 3)%nat; [lia|]. destruct (i <? 2 * n / 3)%nat; lia.
Qed.

Lemma timestamp_le_total (a b : point) :
  timestamp_le a b = false -> timestamp_le b a = true.
Proof. unfold timestamp_le. rewrite Z.leb_gt, Z.leb_le. lia. Qed.

Lemma sorted_by_timestamp (ps : list point) :
  StronglySorted (fun a b => timestamp_le a b = true) (sort_by timestamp_le ps).
Proof.
  apply Sorted_StronglySorted.
  - intros a b c. unfold timestamp_le. rewrite !Z.leb_le. lia.
  - apply sort_by_sorted. apply timestamp_le_total.
Qed.

Lemma relayer_sorted (ps : list point) :
  StronglySorted (fun a b => timestamp_le a b = true) (relayer ps).
Proof.
  apply StronglySorted_of_lookup. intros i j a b Hij Ha Hb.
  rewrite relayer_lookup in Ha, Hb.
  destruct (sort_by timestamp_le ps !! i) as [a'|] eqn:Ea; [|discriminate].
  destruct (sort_by timestamp_le ps !! j) as [b'|] eqn:Eb; [|discriminate].
  simpl in Ha, Hb. inversion Ha; inversion Hb; subst.
  change (timestamp_le a' b' = true).
  exact (StronglySorted_lookup_lt (fun a b => timestamp_le a b = true)
           (sort_by timestamp_le ps) i j a' b' (sorted_by_timestamp ps) Hij Ea Eb).
Qed.

(** X15. What the example hook does to the points of a subclass: the same
    points, only their layers changed, in ascending order of the time stamp;
    the point at position [i] of [n] gets layer 1 when [i < n // 3], layer 2
    when [i < 2 * n // 3], and layer 3 otherwise, so the layers are 1, 2 or 3
    and never decrease along the list, and a subclass with fewer than three
    points gets no point on layer 1. *)
Theorem relayer_sorts_and_layers_by_thirds (ps : list point) :
  let qs := relayer ps in
  Permutation (map (with_layer 0) qs) (map (with_layer 0) ps) /\
  StronglySorted (fun a b => p_timestamp a <= p_timestamp b) qs /\
  (forall (i : nat) q, qs !! i = Some q ->
     p_layer q = third_layer (length ps) i /\ 1 <= p_layer q <= 3) /\
  StronglySorted (fun a b => p_layer a <= p_layer b) qs /\
  (forall q, In q qs -> p_layer q = 1 -> (3 <= length ps)%nat).
Proof.
  cbv zeta. split; [|split; [|split; [|split]]].
  - transitivity (map (with_layer 0) (sort_by timestamp_le ps));
      [|apply Permutation_map, sort_by_perm].
    apply Permutation_refl'. apply list_eq. intros i.
    change ((with_layer 0 <$> relayer ps) !! i
            = (with_layer 0 <$> sort_by timestamp_le ps) !! i).
    rewrite !list_lookup_fmap, relayer_lookup. now destruct (sort_by timestamp_le ps !! i).
  - eapply StronglySorted_weaken; [|apply relayer_sorted].
    intros a b. unfold timestamp_le. now rewrite Z.leb_le.
  - intros i q Hq. rewrite relayer_lookup in Hq.
    destruct (sort_by timestamp_le ps !! i); [|discriminate].
    inversion Hq; subst. simpl. split; [reflexivity | apply third_layer_range].
  - apply StronglySorted_of_lookup. intros i j a b Hij Ha Hb.
    rewrite relayer_lookup in Ha, Hb.
    destruct (sort_by timestamp_le ps !! i); [|discriminate].
    destruct (sort_by timestamp_le ps !! j); [|discriminate].
    inversion Ha; inversion Hb; subst. simpl. apply third_layer_mono. lia.
  - intros q Hq Hl.
    apply list_elem_of_In, list_elem_of_lookup_1 in Hq as (i & Hi).
    rewrite relayer_lookup in Hi.
    destruct (sort_by timestamp_le ps !! i); [|discriminate].
    inversion Hi; subst. simpl in Hl. unfold third_layer in Hl.
    destruct (i <? length ps / 3)%nat eqn:E.
    + apply Nat.ltb_lt in E.
      destruct (Nat.lt_ge_cases (length ps) 3) as [Hlt|Hge]; [|exact Hge].
      rewrite Nat.div_small in E by exact Hlt. lia.
    + destruct (i <? 2 * length ps / 3)%nat; discriminate.
Qed.

Lemma relayer_idempotent (ps : list point) : relayer (relayer ps) = relayer ps.
Proof.
  apply list_eq. intros i. rewrite relayer_lookup.
  rewrite (sort_by_sorted_id timestamp_le (relayer ps))
    by (apply StronglySorted_Sorted, relayer_sorted).
  rewrite relayer_length, relayer_lookup.
  now destruct (sort_by timestamp_le ps !! i).
Qed.

Lemma relayer_doc_idempotent (d : result_doc) :
  relayer_doc (relayer_doc d) = relayer_doc d.
Proof.
  unfold relayer_doc. cbn [r_name r_all]. f_equal.
  rewrite map_map. apply map_ext. intros cd.
  unfold relayer_class. cbn [cd_classname cd_subclasses]. f_equal.
  rewrite map_map. apply map_ext. intros sd.
  unfold relayer_subclass. cbn [sd_subclassname sd_points]. f_equal.
  apply relayer_idempotent.
Qed.

(** X16. On a reference that holds a document the example hook returns that
    very reference, changes the document behind it only, keeps the names of
    the classes and subclasses and the number of points of each, and running
    it a second time changes nothing. *)
Theorem example_hook_returns_its_argument (h : heap) (l : loc) (d : result_doc) :
  h !! l = Some d ->
  let h1 := (process_json_example h l).1 in
  (process_json_example h l).2 = HReturn l /\
  h1 !! l = Some (relayer_doc d) /\
  (forall l', l' <> l -> h1 !! l' = h !! l') /\
  map (fun cd => (cd_classname cd, map sd_subclassname (cd_subclasses cd),
                  map (fun sd => length (sd_points sd)) (cd_subclasses cd)))
      (r_all (relayer_doc d))
  = map (fun cd => (cd_classname cd, map sd_subclassname (cd_subclasses cd),
                    map (fun sd => length (sd_points sd)) (cd_subclasses cd)))
        (r_all d) /\
  process_json_example h1 l = (h1, HReturn l).
Proof.
  intros E. unfold process_json_example. rewrite E. cbv zeta. cbn [fst snd].
  split; [reflexivity|]. split; [apply lookup_insert_eq|]. split; [|split].
  - intros l' Hl. now apply lookup_insert_ne.
  - unfold relayer_doc. cbn [r_all]. rewrite map_map. apply map_ext. intros cd.
    unfold relayer_class. cbn [cd_classname cd_subclasses].
    rewrite !map_map. cbn [sd_subclassname sd_points]. f_equal.
    apply map_ext. intros sd. apply relayer_length.
  - replace (<[l:=relayer_doc d]> h !! l) with (Some (relayer_doc d))
      by (symmetry; apply lookup_insert_eq).
    rewrite relayer_doc_idempotent. f_equal. apply insert_insert_eq.
Qed.

Lemma run_example_hook (st : run_state) (f : str) (d : result_doc) :
  rs_heap st !! rs_result st = Some d ->
  run_hook st (f, process_json_example)
  = {| rs_heap := <[ rs_result st := relayer_doc d ]> (rs_heap st);
       rs_result := rs_result st;
       rs_log := rs_log st ++ [MsgRunning f] |}.
Proof.
  intros E. unfold run_hook, process_json_example. cbn [fst snd].
  now rewrite E.
Qed.

(** X17. Any number of configuration files that carry the example hook
    have the effect of one: [result] stays the same reference, the document
    behind it is re-layered once, and no failure is reported. *)
Theorem repeated_example_hooks (cbs : list (str * hook)) (st : run_state)
    (d : result_doc) :
  Forall (fun cb => cb.2 = process_json_example) cbs ->
  cbs <> [] ->
  rs_heap st !! rs_result st = Some d ->
  run_hooks cbs st
  = {| rs_heap := <[ rs_result st := relayer_doc d ]> (rs_heap st);
       rs_result := rs_result st;
       rs_log := rs_log st ++ map (fun cb => MsgRunning cb.1) cbs |}.
Proof.
  destruct cbs as [|cb rest]; [congruence|]. intros Hall _.
  revert cb st d Hall.
  induction rest as [|cb' rest IH]; intros [f hk] st d Hall E;
    inversion Hall as [|? ? Hcb Hrest]; subst; simpl in Hcb; subst hk.
  - unfold run_hooks. simpl. now apply run_example_hook.
  - change (run_hooks ((f, process_json_example) :: cb' :: rest) st)
      with (run_hooks (cb' :: rest) (run_hook st (f, process_json_example))).
    rewrite (run_example_hook st f d E).
    rewrite (IH cb' _ (relayer_doc d) Hrest).
    + cbn [rs_heap rs_result rs_log]. f_equal.
      * rewrite relayer_doc_idempotent. apply insert_insert_eq.
      * now rewrite <- app_assoc.
    + cbn [rs_heap rs_result]. apply lookup_insert_eq.
Qed.

(** *** configs/audio.py *)

Lemma search_level_found (line : str) (c : N) :
  search_level line = Some c ->
  is_level c = true /\
  exists pre a b post,
    line = pre ++ a :: c :: b :: post /\ is_space a = true /\ is_space b = true /\
    forall pre' a' c' b' post',
      line = pre' ++ a' :: c' :: b' :: post' -> (length pre' < length pre)%nat ->
      is_space a' && is_level c' && is_space b' = false.
Proof.
  induction line as [|a r IH]; [discriminate|].
  destruct r as [|b [|c' r']]; try discriminate.
  cbn [search_level].
  destruct (is_space a && is_level b && is_space c') eqn:E.
  - intros H; inversion H; subst c.
    apply andb_prop in E as [E E3]. apply andb_prop in E as [E1 E2].
    split; [exact E2|]. exists [], a, c', r'.
    split; [reflexivity|]. split; [exact E1|]. split; [exact E3|].
    intros pre' ? ? ? ? _ Hlen. simpl in Hlen. lia.
  - intros H. destruct (IH H) as (Hc & pre & x & y & post & Hr & Hx & Hy & Hfirst).
    split; [exact Hc|]. exists (a :: pre), x, y, post.
    split; [simpl; now rewrite <- Hr|]. split; [exact Hx|]. split; [exact Hy|].
    intros pre' a' c0 b' post' Hl Hlen.
    destruct pre' as [|a0 pre'].
    + simpl in Hl. inversion Hl; subst. exact E.
    + simpl in Hl. inversion Hl; subst a0.
      apply (Hfirst pre' a' c0 b' post'); [assumption | simpl in Hlen; lia].
Qed.

Lemma search_level_none (line : str) :
  search_level line = None ->
  forall pre a c b post,
    line = pre ++ a :: c :: b :: post ->
    is_space a && is_level c && is_space b = false.
Proof.
  induction line as [|x r IH]; intros H pre a c b post Hl.
  - destruct pre; discriminate.
  - destruct r as [|y [|z r']].
    + destruct pre as [|? [|? ?]]; discriminate.
    + destruct pre as [|? [|? [|? ?]]]; discriminate.
    + cbn [search_level] in H.
      destruct (is_space x && is_level y && is_space z) eqn:E; [discriminate|].
      destruct pre as [|x0 pre].
      * simpl in Hl. inversion Hl; subst. exact E.
      * simpl in Hl. inversion Hl; subst x0.
        apply (IH H pre a c b post). assumption.
Qed.

(** X18. [get_log_level] returns one of [E], [W], [I], [D]: the letter of
    the leftmost place where one of them stands between two white-space
    characters, and [I] when the line has no such place. *)
Theorem get_log_level_is_first_level_letter (line : str) :
  is_level (get_log_level line) = true /\
  ((exists pre a b post,
      line = pre ++ a :: get_log_level line :: b :: post /\
      is_space a = true /\ is_space b = true /\
      forall pre' a' c' b' post',
        line = pre' ++ a' :: c' :: b' :: post' -> (length pre' < length pre)%nat ->
        is_space a' && is_level c' && is_space b' = false) \/
   (get_log_level line = 73%N /\
    forall pre a c b post,
      line = pre ++ a :: c :: b :: post ->
      is_space a && is_level c && is_space b = false)).
Proof.
  unfold get_log_level. destruct (search_level line) as [c|] eqn:E.
  - destruct (search_level_found line c E) as (Hc & H). split; [exact Hc|]. now left.
  - split; [reflexivity|]. right. split; [reflexivity|]. now apply search_level_none.
Qed.

Section Layers.
Context {W : World}.

(** X19. A rule whose layer is [level_to_layer] always gets a layer, 1, 2
    or 3: 1 exactly for the level [E] and 3 exactly for [D]; the conversion
    to [int] cannot fail for it. *)
Theorem level_to_layer_gives_a_layer (r : rule) (m : rgmatch) :
  layer r = Fun level_to_layer ->
  exists l, resolve_layer r m = Ok l /\
    (l = 1 \/ l = 2 \/ l = 3) /\
    (l = 1 <-> get_log_level (line_text m) = 69%N) /\
    (l = 3 <-> get_log_level (line_text m) = 68%N).
Proof.
  intros E. unfold resolve_layer. rewrite E. unfold resolve_callable, level_to_layer.
  cbv zeta. cbn [py_int].
  assert (Hl : is_level (get_log_level (line_text m)) = true).
  { unfold get_log_level. destruct (search_level (line_text m)) as [c|] eqn:Es.
    - now destruct (search_level_found _ c Es).
    - reflexivity. }
  unfold is_level in Hl.
  destruct (get_log_level (line_text m) =? 69)%N eqn:E1.
  { apply N.eqb_eq in E1. eexists. split; [reflexivity|]. rewrite E1.
    split; [auto|]. split; split; try reflexivity; try discriminate; lia. }
  destruct (get_log_level (line_text m) =? 87)%N eqn:E2.
  { apply N.eqb_eq in E2. eexists. split; [reflexivity|]. rewrite E2.
    split; [auto|]. split; split; try discriminate; lia. }
  destruct (get_log_level (line_text m) =? 73)%N eqn:E3.
  { apply N.eqb_eq in E3. eexists. split; [reflexivity|]. rewrite E3.
    split; [auto|]. split; split; try discriminate; lia. }
  destruct (get_log_level (line_text m) =? 68)%N eqn:E4; [|discriminate].
  apply N.eqb_eq in E4. eexists. split; [reflexivity|]. rewrite E4.
  split; [auto|]. split; split; try reflexivity; try discriminate; lia.
Qed.

End Layers.

Import Demo.

Lemma example_hook_returns_its_argument_witness :
  ({[ 0%nat := errors_doc ]} : heap) !! 0%nat = Some errors_doc /\
  (process_json_example {[ 0%nat := errors_doc ]} 0%nat).2 = HReturn 0%nat.
Proof.
  assert (H : ({[ 0%nat := errors_doc ]} : heap) !! 0%nat = Some errors_doc)
    by (vm_compute; reflexivity).
  split; [exact H|].
  exact (proj1 (example_hook_returns_its_argument _ _ _ H)).
Defined.

Lemma repeated_example_hooks_witness :
  run_hooks [(lit "a.py", process_json_example); (lit "b.py", process_json_example)]
    {| rs_heap := {[ 0%nat := errors_doc ]}; rs_result := 0%nat; rs_log := [] |}
  = {| rs_heap := <[ 0%nat := relayer_doc errors_doc ]> {[ 0%nat := errors_doc ]};
       rs_result := 0%nat;
       rs_log := [MsgRunning (lit "a.py"); MsgRunning (lit "b.py")] |}.
Proof.
  assert (H1 : Forall (fun cb : str * hook => cb.2 = process_json_example)
                 [(lit "a.py", process_json_example);
                  (lit "b.py", process_json_example)])
    by (repeat constructor).
  assert (H2 : [(lit "a.py", process_json_example);
                (lit "b.py", process_json_example)] <> [])
    by discriminate.
  assert (H3 : rs_heap {| rs_heap := {[ 0%nat := errors_doc ]};
                          rs_result := 0%nat; rs_log := [] |}
               !! rs_result {| rs_heap := {[ 0%nat := errors_doc ]};
                               rs_result := 0%nat; rs_log := [] |}
               = Some errors_doc)
    by (vm_compute; reflexivity).
  exact (repeated_example_hooks _ _ _ H1 H2 H3).
Defined.

Lemma level_to_layer_gives_a_layer_witness :
  layer audio_policy_rule = Fun level_to_layer /\
  exists l, resolve_layer audio_policy_rule audio_policy_match = Ok l /\
    (l = 1 \/ l = 2 \/ l = 3) /\
    (l = 1 <-> get_log_level (line_text audio_policy_match) = 69%N) /\
    (l = 3 <-> get_log_level (line_text audio_policy_match) = 68%N).
Proof.
  assert (H : layer audio_policy_rule = Fun level_to_layer) by reflexivity.
  split; [exact H|].
  exact (level_to_layer_gives_a_layer audio_policy_rule audio_policy_match H).
Defined.

End ConfigsProperties.
